(** * Checkout transaction and payment reconciliation of admin-igiti

    A shallow embedding of the two route handlers

      - [src/app/api/[storeId]/checkout/route.ts]  (module [Checkout])
      - [src/app/api/webhook/route.ts]             (module [Webhook])

    over the Prisma schema of the repository (modules [Product], [Order],
    [OrderItem], [ShippingDetails]), followed by the properties of the
    order-checkout transaction and of the reconciliation handler.

    Conventions of the model.
      - A table is a finite map from the row id ([@id]) to the row; the id
        of a row is its key.  [Int] columns and request quantities are
        unbounded integers ([Z]); the 32-bit range of the column and
        non-integral JSON numbers are outside the model.  The timestamp
        columns ([createdAt], [updatedAt]) are left out.
      - JavaScript numbers are IEEE-754 binary64 values (primitive floats).
      - Every awaited Prisma call is one atomic statement on the store.  A
        statement is recorded in a journal, so that "the handler did not
        touch storage" is a property of the model.  A call whose arguments
        do not fit the schema is rejected by the Prisma client before any
        statement is sent.
      - What the handlers obtain from outside the repository (the Stripe
        signature check, the Flutterwave HTTP call, the clock, the JS
        regular-expression engine, the uuid generator) is an input. *)

From Stdlib Require Import ZArith Ascii String Floats Lia.
From stdpp Require Import base option list gmap strings relations.

(** ** JavaScript values *)

Module Js.

(** A JS [number]. *)
Definition number : Type := float.

(** The number denoted by an integer literal or an integral JSON number:
    the binary64 value nearest to the integer (ties to even; exact up to
    2^53 in absolute value, infinite from 2^1024 on). *)
Definition of_Z (z : Z) : number :=
  SF2Prim (binary_normalize prec emax z 0 false).

(** The result of an optional chain [a?.b?.c] that ends in a
    [string | null] field. *)
Inductive chained : Type :=
| Undefined
| Null
| Str (s : string).

(** [c !== null] *)
Definition not_null (c : chained) : bool :=
  match c with Null => false | _ => true end.

(** How [Array.prototype.join] prints an element: [undefined] and [null]
    print as the empty string. *)
Definition join_elem (c : chained) : string :=
  match c with Str s => s | _ => EmptyString end.

(** [xs.join(sep)] *)
Fixpoint join (sep : string) (xs : list chained) : string :=
  match xs with
  | [] => EmptyString
  | [x] => join_elem x
  | x :: rest => (join_elem x ++ sep ++ join sep rest)%string
  end.

End Js.

(** ** Prisma's [Decimal] *)

Module Decimal.

(** The decimal [unscaled * 10^(-scale)]. *)
Record t : Type := mk { unscaled : Z; scale : nat }.

(** [d.toNumber()]: the binary64 value nearest to the decimal (ties to
    even).  The quotient [|unscaled| / 10^scale] is taken to at least 56
    bits, with a last bit that tells whether anything is left of it, and
    then rounded once. *)
Definition toNumber (d : t) : Js.number :=
  let n := Z.abs (unscaled d) in
  let den := (10 ^ Z.of_nat (scale d))%Z in
  let k := Z.max 0 (Z.log2 den - Z.log2 n + 56) in
  let q := (n * 2 ^ k / den)%Z in
  let sticky := if (n * 2 ^ k mod den =? 0)%Z then 0%Z else 1%Z in
  SF2Prim
    (binary_normalize prec emax (Z.sgn (unscaled d) * Z.lor q sticky) (- k) false).

(** Exact decimal arithmetic. *)
Definition zero : t := mk 0 0.

Definition rescale (d : t) (k : nat) : Z :=
  (unscaled d * 10 ^ Z.of_nat (k - scale d))%Z.

Definition add (a b : t) : t :=
  let k := max (scale a) (scale b) in
  mk (rescale a k + rescale b k) k.

Definition mulZ (a : t) (n : Z) : t := mk (unscaled a * n) (scale a).

End Decimal.

(** ** The schema: rows and tables *)

Module Product.
Record t : Type := mk {
  name : string;
  price : Decimal.t;
  inStock : Z;
  categoryId : string;
  isArchived : bool;
  isFeatured : bool;
  storeId : string;
  description : string
}.

(** The row after [data: { inStock: v }]. *)
Definition set_inStock (v : Z) (p : t) : t :=
  mk (name p) (price p) v (categoryId p) (isArchived p) (isFeatured p)
     (storeId p) (description p).
End Product.

Module OrderItem.
(** An order item is owned by its order: it is kept inside the order row
    (the [orderItems] relation), with the product it references. *)
Record t : Type := mk { productId : string; quantity : Z }.
End OrderItem.

Module Order.
(** [model Order].  It has no [address] and no [phone] column. *)
Record t : Type := mk {
  storeId : string;
  isPaid : bool;
  isSent : bool;
  orderItems : list OrderItem.t;
  shippingDetailsId : option string
}.

(** The fields that [model Order] declares. *)
Definition fields : list string :=
  ["id"; "storeId"; "isPaid"; "createdAt"; "updatedAt"; "isSent"; "store";
   "orderItems"; "shippingDetails"; "shippingDetailsId"].

(** The [data] object of an [order.update], by the keys that the handlers
    put in it ([None]: the key is not there). *)
Record data : Type := mkData {
  data_isPaid : option bool;
  data_address : option string;
  data_phone : option string
}.

Definition key {A} (name : string) (value : option A) : list string :=
  match value with Some _ => [name] | None => [] end.

(** The keys of a [data] object. *)
Definition keys (d : data) : list string :=
  key "isPaid" (data_isPaid d) ++
  key "address" (data_address d) ++
  key "phone" (data_phone d).

(** Every key of the object is a field of the model.  Prisma rejects any
    other object ("Unknown argument"). *)
Definition valid (d : data) : bool :=
  forallb (fun name => bool_decide (name ∈ fields)) (keys d).

(** The row after a valid [data] is written to it. *)
Definition apply (d : data) (o : t) : t :=
  mk (storeId o)
     (default (isPaid o) (data_isPaid d))
     (isSent o)
     (orderItems o)
     (shippingDetailsId o).
End Order.

Module ShippingDetails.
Record t : Type := mk {
  addressLine1 : string;
  addressLine2 : option string;
  city : string;
  state : string;
  zipCode : string;
  country : string;
  phoneNumber : string
}.
End ShippingDetails.

Record DB : Type := mkDB {
  products : gmap string Product.t;
  orders : gmap string Order.t;
  shippingDetails : gmap string ShippingDetails.t
}.

(** ** Errors

    The handlers throw plain [Error]s that differ by their message; the
    constructors name the message. *)

Inductive Error : Type :=
| NotFound (productId : string)
    (** checkout: "Product with ID ... not found.";
        webhook: "Product with id ... not found." *)
| InsufficientStock (subject : string)
    (** checkout: "Not enough stock for <product name>.";
        webhook: "Not enough items in stock for product id <id>." *)
| NoProducts
    (** "No products available." *)
| PaymentFailed (message : string)
    (** [flutterwaveData.message || "Payment initiation failed."] *)
| RecordNotFound
    (** Prisma: the record of an [update] does not exist *)
| UniqueConstraint
    (** Prisma: a [create] with an id that is taken *)
| ValidationError
    (** Prisma: the arguments of a call do not fit the schema (a key of
        [data] that the model does not declare, [where: { id: undefined }]) *)
| TypeError
    (** a property of [undefined] was read *)
| FetchFailed (message : string).
    (** [fetch] rejected *)

(** ** The store and its statements *)

Inductive Stmt : Type :=
| ProductFindUnique (id : string)
| ProductUpdate (id : string) (inStock : Z)
| OrderUpdate (id : string)
| OrderCreate (id : string)
| ShippingDetailsCreate (id : string).

(** The world of a handler: the database, the journal of the statements
    sent to it (oldest first) and what [console.error] printed (what
    [console.log] prints is left out). *)
Record World : Type := mkWorld {
  db : DB;
  journal : list Stmt;
  stderr : list Error
}.

Definition sent (s : Stmt) (w : World) : World :=
  mkWorld (db w) (journal w ++ [s]) (stderr w).

Definition with_db (d : DB) (w : World) : World :=
  mkWorld d (journal w) (stderr w).

Definition console_error (e : Error) (w : World) : World :=
  mkWorld (db w) (journal w) (stderr w ++ [e]).

Definition with_products (m : gmap string Product.t) (d : DB) : DB :=
  mkDB m (orders d) (shippingDetails d).

Definition with_orders (m : gmap string Order.t) (d : DB) : DB :=
  mkDB (products d) m (shippingDetails d).

Definition with_shippingDetails (m : gmap string ShippingDetails.t) (d : DB) : DB :=
  mkDB (products d) (orders d) m.

(** An awaited computation: it runs on the world and either throws or
    returns; the world it leaves is kept in both cases. *)
Definition Async (A : Type) : Type := World -> (Error + A) * World.

Definition ret {A} (a : A) : Async A := fun w => (inr a, w).

Definition throw {A} (e : Error) : Async A := fun w => (inl e, w).

Definition bind {A B} (m : Async A) (k : A -> Async B) : Async B :=
  fun w =>
    match m w with
    | (inl e, w') => (inl e, w')
    | (inr a, w') => k a w'
    end.

Notation "x <~ m ; k" := (bind m (fun x => k))
  (at level 20, m at level 100, k at level 200, only parsing).

(** ** The Prisma client, as far as the handlers use it *)

Module Prisma.

(** [product.findUnique({ where: { id } })] *)
Definition product_findUnique (id : string) : Async (option Product.t) :=
  fun w => (inr (products (db w) !! id), sent (ProductFindUnique id) w).

(** [product.update({ where: { id }, data: { inStock } })]: the row with
    that id gets the given stock, whatever its stock is now. *)
Definition product_update (id : string) (inStock : Z) : Async Product.t :=
  fun w =>
    let w := sent (ProductUpdate id inStock) w in
    match products (db w) !! id with
    | None => (inl RecordNotFound, w)
    | Some p =>
        let p' := Product.set_inStock inStock p in
        (inr p', with_db (with_products (<[id := p']> (products (db w))) (db w)) w)
    end.

(** [order.update({ where: { id }, data, include: { orderItems: true } })];
    the id is [None] when the expression given for it is [undefined].  The
    client checks the arguments against the schema first and throws, with
    nothing sent to the store, when they do not fit. *)
Definition order_update (id : option string) (d : Order.data) : Async Order.t :=
  fun w =>
    if negb (Order.valid d) then (inl ValidationError, w)
    else
      match id with
      | None => (inl ValidationError, w)
      | Some id =>
          let w := sent (OrderUpdate id) w in
          match orders (db w) !! id with
          | None => (inl RecordNotFound, w)
          | Some o =>
              let o' := Order.apply d o in
              (inr o', with_db (with_orders (<[id := o']> (orders (db w))) (db w)) w)
          end
      end.

(** [shippingDetails.create({ data })], with the uuid drawn for the row. *)
Definition shippingDetails_create (id : string) (d : ShippingDetails.t)
  : Async string :=
  fun w =>
    let w := sent (ShippingDetailsCreate id) w in
    match shippingDetails (db w) !! id with
    | Some _ => (inl UniqueConstraint, w)
    | None =>
        (inr id,
         with_db (with_shippingDetails (<[id := d]> (shippingDetails (db w))) (db w)) w)
    end.

(** Some order is linked to these shipping details already
    ([shippingDetailsId] is [@unique]). *)
Definition linked (shippingDetailsId : option string) (m : gmap string Order.t) : Prop :=
  match shippingDetailsId with
  | Some id => map_Exists (fun _ o => Order.shippingDetailsId o = Some id) m
  | None => False
  end.

Global Instance linked_dec shippingDetailsId m : Decision (linked shippingDetailsId m).
Proof. destruct shippingDetailsId; apply _. Defined.

(** [order.create({ data })], with the uuid drawn for the row. *)
Definition order_create (id : string) (o : Order.t) : Async (string * Order.t) :=
  fun w =>
    let w := sent (OrderCreate id) w in
    match orders (db w) !! id with
    | Some _ => (inl UniqueConstraint, w)
    | None =>
        if bool_decide (linked (Order.shippingDetailsId o) (orders (db w)))
        then (inl UniqueConstraint, w)
        else (inr (id, o), with_db (with_orders (<[id := o]> (orders (db w))) (db w)) w)
    end.

(** [$transaction(async (tx) => ...)]: when the callback throws, every
    write it made is rolled back and the error is rethrown. *)
Definition transaction {A} (callback : Async A) : Async A :=
  fun w =>
    match callback w with
    | (inl e, w') => (inl e, with_db (db w) w')
    | (inr a, w') => (inr a, w')
    end.

End Prisma.

(** ** HTTP responses *)

Inductive Body : Type :=
| NoBody
| Text (s : string)
| JsonEmpty
| JsonUrl (url : string)
| JsonError (e : Error)          (** [{ error: error.message }] *)
| JsonMessage (s : string).

Record Response : Type := mkResponse {
  status : Z;
  body : Body;
  cors : bool                    (** sent with [corsHeaders] *)
}.

(** ** Statements that interleave

    Several asynchronous computations are in flight at once: the item
    updates that the Stripe handler starts with [orderItems.map(async ...)]
    and joins with [Promise.all], or the loop bodies of two checkout
    requests.  Each one is a task that advances by one awaited statement at
    a time; a schedule names, step by step, the task whose statement the
    store executes next. *)

Section Interleaving.

Context {T : Type}.

(** One awaited statement of a task, and the error a task ended with. *)
Variable step : T -> World -> T * World.
Variable rejected : T -> option Error.

(** The tasks in flight and the first rejection so far (what a
    [Promise.all] over them rejects with). *)
Record Pool : Type := mkPool {
  tasks : list T;
  rejection : option Error
}.

Definition advance (i : nat) (p : Pool) (w : World) : Pool * World :=
  match tasks p !! i with
  | None => (p, w)
  | Some t =>
      let (t', w') := step t w in
      (mkPool (<[i := t']> (tasks p))
              (match rejection p with Some e => Some e | None => rejected t' end),
       w')
  end.

Fixpoint run (sched : list nat) (p : Pool) (w : World) : Pool * World :=
  match sched with
  | [] => (p, w)
  | i :: sched => let (p', w') := advance i p w in run sched p' w'
  end.

(** The schedule that lets every task, in turn, run its two statements. *)
Definition in_turn (n : nat) : list nat :=
  flat_map (fun i => [i; i]) (seq 0 n).

(** The tasks run as the schedule says and then, whatever is still in
    flight, to their end. *)
Definition settle (sched : list nat) (ts : list T) (w : World) : Pool * World :=
  run (sched ++ in_turn (length ts)) (mkPool ts None) w.

End Interleaving.

Arguments Pool : clear implicits.

(** ** [src/app/api/[storeId]/checkout/route.ts] *)

Module Checkout.

(** An element of [RequestBody.products]. *)
Module ProductData.
Record t : Type := mk { productId : string; quantity : Z }.
End ProductData.

Record RequestBody : Type := mkRequestBody {
  body_products : option (list ProductData.t);
  body_shippingDetails : option ShippingDetails.t
}.

(** An element of [line_items]. *)
Module LineItem.
Record t : Type := mk {
  name : string;
  quantity : Z;
  unit_amount : Js.number
}.
End LineItem.

(** [OPTIONS]: the CORS preflight. *)
Definition OPTIONS (w : World) : Response * World :=
  (mkResponse 200 JsonEmpty true, w).

(** The line item pushed for a product that passed the checks. *)
Definition line_item (productData : ProductData.t) (product : Product.t) : LineItem.t :=
  LineItem.mk (Product.name product)
              (ProductData.quantity productData)
              (PrimFloat.mul (Decimal.toNumber (Product.price product)) (Js.of_Z 100)).

(** [for (const productData of products) { ... }] (lines 49-73). *)
Fixpoint reserveStock (products : list ProductData.t) (line_items : list LineItem.t)
  : Async (list LineItem.t) :=
  match products with
  | [] => ret line_items
  | productData :: rest =>
      product <~ Prisma.product_findUnique (ProductData.productId productData);
      match product with
      | None => throw (NotFound (ProductData.productId productData))
      | Some product =>
          if (Product.inStock product <? ProductData.quantity productData)%Z
          then throw (InsufficientStock (Product.name product))
          else
            let line_items := line_items ++ [line_item productData product] in
            _ <~ Prisma.product_update
                   (ProductData.productId productData)
                   (Product.inStock product - ProductData.quantity productData);
            reserveStock rest line_items
      end
  end.

(** [line_items.reduce((total, item) => total + item.unit_amount *
    item.quantity, 0) / 100] *)
Definition totalAmount (line_items : list LineItem.t) : Js.number :=
  PrimFloat.div
    (fold_left
       (fun total item =>
          PrimFloat.add total
            (PrimFloat.mul (LineItem.unit_amount item) (Js.of_Z (LineItem.quantity item))))
       line_items (Js.of_Z 0))
    (Js.of_Z 100).

(** [products.map((productData) => ({ product: { connect: ... }, quantity }))];
    the products connected are those the loop has found. *)
Definition orderItems_of (products : list ProductData.t) : list OrderItem.t :=
  map (fun productData =>
         OrderItem.mk (ProductData.productId productData)
                      (ProductData.quantity productData))
      products.

(** The body of the processor's answer, as far as the handler reads it. *)
Record FlutterwaveData : Type := mkFlutterwaveData {
  fw_status : option string;
  fw_message : option string;
  fw_data_link : option string   (** [None]: [data] is undefined *)
}.

(** [paymentPayload] *)
Record PaymentPayload : Type := mkPaymentPayload {
  tx_ref : string;
  amount : Js.number;
  currency : string;
  redirect_url : string;
  customer_email : string;
  customer_phone_number : string;
  customer_name : string;
  meta_orderId : string
}.

(** What a request gets from outside: the uuids drawn for the rows it
    creates, the clock, the configuration and the payment processor
    ([inl]: the call to it failed). *)
Record Env : Type := mkEnv {
  uuid_shippingDetails : string;
  uuid_order : string;
  now : string;                  (** [Date.now()], printed *)
  FRONTEND_STORE_URL : string;
  flutterwave : PaymentPayload -> Error + FlutterwaveData
}.

(** The callback of [$transaction] (lines 48-108). *)
Definition callback (env : Env) (storeId : string)
    (products : list ProductData.t) (shippingDetails : ShippingDetails.t)
  : Async (string * Order.t * Js.number) :=
  line_items <~ reserveStock products [];
  if (length line_items =? 0)%nat then throw NoProducts
  else
    createdShippingDetails <~
      Prisma.shippingDetails_create (uuid_shippingDetails env) shippingDetails;
    order <~
      Prisma.order_create (uuid_order env)
        (Order.mk storeId false false (orderItems_of products)
                  (Some createdShippingDetails));
    ret (order, totalAmount line_items).

(** The transaction of a checkout: what the specification calls
    [createOrder]. *)
Definition createOrder (env : Env) (storeId : string)
    (products : list ProductData.t) (shippingDetails : ShippingDetails.t)
  : Async (string * Order.t * Js.number) :=
  Prisma.transaction (callback env storeId products shippingDetails).

Definition paymentPayload (env : Env) (orderId : string) (totalAmount : Js.number)
    (shippingDetails : ShippingDetails.t) : PaymentPayload :=
  mkPaymentPayload
    ("order_" ++ orderId ++ "_" ++ now env)
    totalAmount
    "USD"
    (FRONTEND_STORE_URL env ++ "/success")
    "customer@example.com"
    (ShippingDetails.phoneNumber shippingDetails)
    (ShippingDetails.city shippingDetails ++ ", " ++ ShippingDetails.state shippingDetails)
    orderId.

(** The part of [POST] after the transaction: the payment link. *)
Definition initiatePayment (env : Env) (orderId : string) (totalAmount : Js.number)
    (shippingDetails : ShippingDetails.t) : Error + string :=
  match flutterwave env (paymentPayload env orderId totalAmount shippingDetails) with
  | inl e => inl e
  | inr flutterwaveData =>
      if match fw_status flutterwaveData with
         | Some s => (s =? "success")%string
         | None => false
         end
      then
        match fw_data_link flutterwaveData with
        | Some link => inr link
        | None => inl TypeError
        end
      else
        inl (PaymentFailed
               match fw_message flutterwaveData with
               | Some m => if (m =? "")%string then "Payment initiation failed." else m
               | None => "Payment initiation failed."
               end)
  end.

Definition POST (env : Env) (req : RequestBody) (storeId : string) (w : World)
  : Response * World :=
  match body_products req with
  | None | Some [] => (mkResponse 400 (Text "Products are required") false, w)
  | Some products =>
      match body_shippingDetails req with
      | None => (mkResponse 400 (Text "Shipping details are required") false, w)
      | Some shippingDetails =>
          match createOrder env storeId products shippingDetails w with
          | (inl e, w') => (mkResponse 400 (JsonError e) false, console_error e w')
          | (inr (orderId, order, totalAmount), w') =>
              match initiatePayment env orderId totalAmount shippingDetails with
              | inl e => (mkResponse 400 (JsonError e) false, console_error e w')
              | inr link => (mkResponse 200 (JsonUrl link) true, w')
              end
          end
      end
  end.

(** The body of a Flutterwave notification. *)
Record Payload : Type := mkPayload {
  event : string;
  data : option (string * string)  (** [tx_ref] and [status] of [payload.data] *)
}.

(** [paymentWebhook]; [order_ref] is what
    [tx_ref.match(/order_(.+)_\d+/)] captures. *)
Definition paymentWebhook (order_ref : string -> option string)
    (payload : Payload) (w : World) : Response * World :=
  if negb (event payload =? "charge.completed")%string
  then (mkResponse 400 (Text "Invalid event type") false, w)
  else
    match data payload with
    | None => (mkResponse 500 (Text "Internal Server Error") false, console_error TypeError w)
    | Some (tx_ref, status) =>
        if negb (status =? "successful")%string
        then (mkResponse 400 (Text "Transaction not successful") false, w)
        else
          match order_ref tx_ref with
          | None => (mkResponse 400 (Text "Invalid transaction reference") false, w)
          | Some orderId =>
              match Prisma.order_update (Some orderId)
                      (Order.mkData (Some true) None None) w with
              | (inl e, w') =>
                  (mkResponse 500 (Text "Internal Server Error") false, console_error e w')
              | (inr _, w') =>
                  (mkResponse 200 (JsonMessage "Order payment updated successfully") true, w')
              end
          end
    end.

(** *** Two requests at once

    The loop body of a request, statement by statement: the statements of
    two requests that are served concurrently interleave. *)
Inductive Iteration : Type :=
| AtFind (productData : ProductData.t)
| AtUpdate (productData : ProductData.t) (product : Product.t)
| Reserved (item : LineItem.t)
| Thrown (e : Error).

Definition iterate (it : Iteration) (w : World) : Iteration * World :=
  match it with
  | AtFind productData =>
      match Prisma.product_findUnique (ProductData.productId productData) w with
      | (inr (Some product), w') =>
          if (Product.inStock product <? ProductData.quantity productData)%Z
          then (Thrown (InsufficientStock (Product.name product)), w')
          else (AtUpdate productData product, w')
      | (inr None, w') => (Thrown (NotFound (ProductData.productId productData)), w')
      | (inl e, w') => (Thrown e, w')
      end
  | AtUpdate productData product =>
      match Prisma.product_update
              (ProductData.productId productData)
              (Product.inStock product - ProductData.quantity productData) w with
      | (inr _, w') => (Reserved (line_item productData product), w')
      | (inl e, w') => (Thrown e, w')
      end
  | Reserved _ | Thrown _ => (it, w)
  end.

Definition thrown (it : Iteration) : option Error :=
  match it with Thrown e => Some e | _ => None end.

End Checkout.

(** ** [src/app/api/webhook/route.ts] *)

Module Webhook.

(** [Stripe.Address]: every field is [string | null]. *)
Module Address.
Record t : Type := mk {
  line1 : option string;
  line2 : option string;
  city : option string;
  state : option string;
  postal_code : option string;
  country : option string
}.
End Address.

(** [session.shipping_details] *)
Module Shipping.
Record t : Type := mk {
  address : option Address.t;
  name : option string
}.
End Shipping.

(** [event.data.object], read as a checkout session. *)
Module Session.
Record t : Type := mk {
  metadata_orderId : option string;   (** [session?.metadata?.orderId] *)
  shipping_details : option Shipping.t
}.
End Session.

Module Event.
Record t : Type := mk { type : string; object : Session.t }.
End Event.

(** The Stripe client: [stripe.webhooks.constructEvent] checks the
    signature of the body against the secret and parses the event; [inl]
    is the message of the error it throws. *)
Record Stripe : Type := mkStripe {
  constructEvent : string -> option string -> string -> string + Event.t;
  STRIPE_WEBHOOK_SECRET : string
}.

(** [shippingDetails?.address?.<field>] *)
Definition chain (shippingDetails : option Shipping.t)
    (field : Address.t -> option string) : Js.chained :=
  match shippingDetails with
  | None => Js.Undefined
  | Some sd =>
      match Shipping.address sd with
      | None => Js.Undefined
      | Some a => match field a with None => Js.Null | Some s => Js.Str s end
      end
  end.

Definition addressComponents (shippingDetails : option Shipping.t) : list Js.chained :=
  [ chain shippingDetails Address.line1;
    chain shippingDetails Address.line2;
    chain shippingDetails Address.city;
    chain shippingDetails Address.state;
    chain shippingDetails Address.postal_code;
    chain shippingDetails Address.country ].

(** [addressComponents.filter((c) => c !== null).join(", ")] *)
Definition addressString (shippingDetails : option Shipping.t) : string :=
  Js.join ", " (List.filter Js.not_null (addressComponents shippingDetails)).

(** [shippingDetails?.name || ""] *)
Definition phone (shippingDetails : option Shipping.t) : string :=
  match shippingDetails with
  | Some sd => default "" (Shipping.name sd)
  | None => ""
  end.

(** The async function mapped over [order.orderItems] (lines 60-85),
    statement by statement. *)
Inductive Task : Type :=
| Pending (orderItem : OrderItem.t)
| Found (orderItem : OrderItem.t) (product : Product.t)
| Fulfilled (updatedProduct : Product.t)
| Rejected (error : Error).

(** [product.id] of a found product is the id it was looked up with. *)
Definition step (t : Task) (w : World) : Task * World :=
  match t with
  | Pending orderItem =>
      match Prisma.product_findUnique (OrderItem.productId orderItem) w with
      | (inr (Some product), w') =>
          if (Product.inStock product <? OrderItem.quantity orderItem)%Z
          then (Rejected (InsufficientStock (OrderItem.productId orderItem)), w')
          else (Found orderItem product, w')
      | (inr None, w') => (Rejected (NotFound (OrderItem.productId orderItem)), w')
      | (inl e, w') => (Rejected e, w')
      end
  | Found orderItem product =>
      match Prisma.product_update
              (OrderItem.productId orderItem)
              (Product.inStock product - OrderItem.quantity orderItem) w with
      | (inr updatedProduct, w') => (Fulfilled updatedProduct, w')
      | (inl e, w') => (Rejected e, w')
      end
  | Fulfilled _ | Rejected _ => (t, w)
  end.

Definition rejected (t : Task) : option Error :=
  match t with Rejected e => Some e | _ => None end.

(** [await Promise.all(productUpdates)] inside the [try]: the item tasks
    run interleaved as the schedule says; the first rejection, if any, is
    what the [catch] prints.  A rejection does not stop the other tasks. *)
Definition productUpdates (sched : list nat) (order : Order.t) (w : World) : World :=
  let '(pool, w') := settle step rejected sched (map Pending (Order.orderItems order)) w in
  match rejection pool with
  | Some e => console_error e w'
  | None => w'
  end.

Definition POST (stripe : Stripe) (sched : list nat)
    (body : string) (signature : option string) (w : World) : Response * World :=
  match constructEvent stripe body signature (STRIPE_WEBHOOK_SECRET stripe) with
  | inl message =>
      (mkResponse 400 (Text ("Webhook Error: " ++ message)) false, w)
  | inr event =>
      let session := Event.object event in
      let shippingDetails := Session.shipping_details session in
      if (Event.type event =? "checkout.session.completed")%string
      then
        match Prisma.order_update (Session.metadata_orderId session)
                (Order.mkData (Some true)
                              (Some (addressString shippingDetails))
                              (Some (phone shippingDetails))) w with
        | (inl e, w') => (mkResponse 200 NoBody false, console_error e w')
        | (inr order, w') => (mkResponse 200 NoBody false, productUpdates sched order w')
        end
      else (mkResponse 200 NoBody false, w)
  end.

End Webhook.

(** ** The operations of the core *)

(** One request served by one of the handlers. *)
Inductive served (w w' : World) : Prop :=
| served_options :
    w' = (Checkout.OPTIONS w).2 -> served w w'
| served_checkout env req storeId :
    w' = (Checkout.POST env req storeId w).2 -> served w w'
| served_paymentWebhook order_ref payload :
    w' = (Checkout.paymentWebhook order_ref payload w).2 -> served w w'
| served_webhook stripe sched body signature :
    w' = (Webhook.POST stripe sched body signature w).2 -> served w w'.

(** The statements of requests that are served at once: the item updates
    of Stripe deliveries and the loop bodies of checkouts, in one pool. *)
Definition statement (t : Webhook.Task + Checkout.Iteration) (w : World)
  : (Webhook.Task + Checkout.Iteration) * World :=
  match t with
  | inl task => let (task', w') := Webhook.step task w in (inl task', w')
  | inr iteration => let (iteration', w') := Checkout.iterate iteration w in (inr iteration', w')
  end.

Definition failed (t : Webhook.Task + Checkout.Iteration) : option Error :=
  match t with
  | inl task => Webhook.rejected task
  | inr iteration => Checkout.thrown iteration
  end.

(** ** What the specification asks for, in its words *)

(** The total in the words of the specification: the exact fixed-point sum
    of price times quantity over the cart, at the prices of the store. *)
Definition exact_total (prices : gmap string Product.t)
    (cart : list Checkout.ProductData.t) : Decimal.t :=
  fold_left
    (fun total productData =>
       match prices !! Checkout.ProductData.productId productData with
       | Some product =>
           Decimal.add total
             (Decimal.mulZ (Product.price product) (Checkout.ProductData.quantity productData))
       | None => total
       end)
    cart Decimal.zero.

(** The stock decrement in the words of the specification: a conditional
    read-modify-write, [UPDATE ... SET inStock = inStock - quantity WHERE
    id = ... AND inStock >= quantity]; the result tells whether a row was
    affected. *)
Definition conditional_decrement (id : string) (quantity : Z)
    (m : gmap string Product.t) : bool * gmap string Product.t :=
  match m !! id with
  | Some p =>
      if (quantity <=? Product.inStock p)%Z
      then (true, <[id := Product.set_inStock (Product.inStock p - quantity) p]> m)
      else (false, m)
  | None => (false, m)
  end.

(** ** Predicates on the store *)

Definition stock (w : World) (id : string) : option Z :=
  Product.inStock <$> products (db w) !! id.

Definition paid (w : World) (id : string) : option bool :=
  Order.isPaid <$> orders (db w) !! id.

Definition stock_nonneg (w : World) : Prop :=
  forall id p, products (db w) !! id = Some p -> (0 <= Product.inStock p)%Z.

(** ** The store, in the terms of the properties *)

(** No statement sent to the store writes a negative stock. *)
Definition writes_nonneg (w : World) : Prop :=
  forall id v, ProductUpdate id v ∈ journal w -> (0 <= v)%Z.

Definition sound (w : World) : Prop := stock_nonneg w /\ writes_nonneg w.

(** The row of a product after [quantity] units were taken from it. *)
Definition taken (quantity : Z) (product : Product.t) : Product.t :=
  Product.set_inStock (Product.inStock product - quantity) product.

(** ** Carts *)

(** The ids a cart names. *)
Definition cart_ids (cart : list Checkout.ProductData.t) : list string :=
  map Checkout.ProductData.productId cart.

(** The line items of a cart at the prices of a store. *)
Definition priced (prices : gmap string Product.t)
    (cart : list Checkout.ProductData.t) : list Checkout.LineItem.t :=
  omap (fun productData =>
          Checkout.line_item productData <$>
            prices !! Checkout.ProductData.productId productData)
       cart.

Definition in_stock (w : World) (productData : Checkout.ProductData.t) : Prop :=
  exists product,
    products (db w) !! Checkout.ProductData.productId productData = Some product /\
    (Checkout.ProductData.quantity productData <= Product.inStock product)%Z.

Definition over_stock (w : World) (productData : Checkout.ProductData.t) : Prop :=
  exists product,
    products (db w) !! Checkout.ProductData.productId productData = Some product /\
    (Product.inStock product < Checkout.ProductData.quantity productData)%Z.


(** The world after the two statements of a loop body that passes its
    checks. *)
Definition reserved (productData : Checkout.ProductData.t) (product : Product.t)
    (w : World) : World :=
  let id := Checkout.ProductData.productId productData in
  let v := (Product.inStock product - Checkout.ProductData.quantity productData)%Z in
  with_db
    (with_products (<[id := Product.set_inStock v product]> (products (db w))) (db w))
    (sent (ProductUpdate id v) (sent (ProductFindUnique id) w)).

(** The uuids drawn for the rows of a checkout are not in use: no row has
    them as id, and no order is linked to the new shipping details. *)
Definition uuids_free (env : Checkout.Env) (w : World) : Prop :=
  shippingDetails (db w) !! Checkout.uuid_shippingDetails env = None /\
  orders (db w) !! Checkout.uuid_order env = None /\
  ~ Prisma.linked (Some (Checkout.uuid_shippingDetails env)) (orders (db w)).

(** The order row that a checkout creates. *)
Definition new_order (env : Checkout.Env) (storeId : string)
    (cart : list Checkout.ProductData.t) : Order.t :=
  Order.mk storeId false false (Checkout.orderItems_of cart)
           (Some (Checkout.uuid_shippingDetails env)).

(** ** Deliveries *)

(** The request carries a well-signed "checkout completed" event. *)
Definition delivers (stripe : Webhook.Stripe) (body : string)
    (signature : option string) (event : Webhook.Event.t) : Prop :=
  Webhook.constructEvent stripe body signature (Webhook.STRIPE_WEBHOOK_SECRET stripe)
    = inr event /\
  Webhook.Event.type event = "checkout.session.completed".

(** The [data] that the handler gives to [order.update] for the event. *)
Definition confirmation (event : Webhook.Event.t) : Order.data :=
  let shippingDetails := Webhook.Session.shipping_details (Webhook.Event.object event) in
  Order.mkData (Some true)
               (Some (Webhook.addressString shippingDetails))
               (Some (Webhook.phone shippingDetails)).

(** The notification of a successful charge with this reference. *)
Definition charge (tx_ref : string) : Checkout.Payload :=
  Checkout.mkPayload "charge.completed" (Some (tx_ref, "successful")).


(** ** The payment status along a sequence of requests *)



(** ** Tasks in flight *)

(** The pool of a delivery before its first statement. *)
Definition started (items : list OrderItem.t) : Pool Webhook.Task :=
  mkPool (map Webhook.Pending items) None.

Definition checked (t : Webhook.Task) : Prop :=
  match t with
  | Webhook.Found item product => (OrderItem.quantity item <= Product.inStock product)%Z
  | _ => True
  end.

Definition reserving (it : Checkout.Iteration) : Prop :=
  match it with
  | Checkout.AtUpdate productData product =>
      (Checkout.ProductData.quantity productData <= Product.inStock product)%Z
  | _ => True
  end.

(** A task of either kind that is past its stock check holds a stock that
    covers its quantity. *)
Definition covered (t : Webhook.Task + Checkout.Iteration) : Prop :=
  match t with
  | inl task => checked task
  | inr iteration => reserving iteration
  end.

(** Two requests, each for one product, at their first statement. *)
Definition two_calls (id : string) (q1 q2 : Z) : Pool Checkout.Iteration :=
  mkPool [Checkout.AtFind (Checkout.ProductData.mk id q1);
          Checkout.AtFind (Checkout.ProductData.mk id q2)] None.

Definition interleaved (sched : list nat) (id : string) (q1 q2 : Z) (w : World)
  : Pool Checkout.Iteration * World :=
  run Checkout.iterate Checkout.thrown sched (two_calls id q1 q2) w.

(** ** A sample store *)

Module Sample.

(** The product "P1", priced in hundredths, with a stock. *)
Definition widget (cents stock : Z) : Product.t :=
  Product.mk "Widget" (Decimal.mk cents 2) stock "tools" false false "store" "".

(** A store that holds this product and no order. *)
Definition shop (cents stock : Z) : World :=
  mkWorld (mkDB {["P1" := widget cents stock]} ∅ ∅) [] [].

Definition shipping : ShippingDetails.t :=
  ShippingDetails.mk "1 KN 5 Rd" None "Kigali" "Kigali" "00000" "RW" "+250700000000".

(** The environment of a request whose payment link is granted. *)
Definition env : Checkout.Env :=
  Checkout.mkEnv "S1" "O1" "1700000000000" "https://buy.igiti.africa"
    (fun _ => inr (Checkout.mkFlutterwaveData (Some "success") None (Some "https://pay"))).

Definition cart (quantity : Z) : list Checkout.ProductData.t :=
  [Checkout.ProductData.mk "P1" quantity].

Definition request (quantity : Z) : Checkout.RequestBody :=
  Checkout.mkRequestBody (Some (cart quantity)) (Some shipping).

(** The order "O1" for some units of "P1", not paid yet. *)
Definition order (quantity : Z) : Order.t :=
  Order.mk "store" false false [OrderItem.mk "P1" quantity] None.

Definition shop_with_order (stock quantity : Z) : World :=
  mkWorld (mkDB {["P1" := widget 1000 stock]} {["O1" := order quantity]} ∅) [] [].

(** The "checkout completed" event for the order with this id. *)
Definition completed (orderId : string) : Webhook.Event.t :=
  Webhook.Event.mk "checkout.session.completed" (Webhook.Session.mk (Some orderId) None).

(** A Stripe client that accepts the signature "good" and reads the body
    as the id of the order. *)
Definition stripe : Webhook.Stripe :=
  Webhook.mkStripe
    (fun body signature secret =>
       match signature with
       | Some "good" => inr (completed body)
       | _ => inl "No signatures found matching the expected signature for payload."
       end)
    "whsec".

(** The environment of a later request: other uuids, a later clock. *)
Definition later : Checkout.Env :=
  Checkout.mkEnv "S2" "O2" "1700000000001" "https://buy.igiti.africa"
    (fun _ => inr (Checkout.mkFlutterwaveData (Some "success") None (Some "https://pay"))).

(** What [/order_(.+)_\d+/] captures in the reference of the payment of
    the order "O1", and in no other reference used here. *)
Definition order_ref (tx_ref : string) : option string :=
  if (tx_ref =? "order_O1_1700000000000")%string then Some "O1" else None.

End Sample.

(** ** Carts with repeated products *)

(** The quantity a cart asks of a product, over all its items. *)
Definition requested (id : string) (cart : list Checkout.ProductData.t) : Z :=
  foldr (fun productData total =>
           if decide (Checkout.ProductData.productId productData = id)
           then (Checkout.ProductData.quantity productData + total)%Z
           else total)
        0%Z cart.

(** Every product of the cart exists and has stock for all the cart asks
    of it. *)
Definition within_stock (w : World) (cart : list Checkout.ProductData.t) : Prop :=
  forall productData, productData ∈ cart ->
    exists product,
      products (db w) !! Checkout.ProductData.productId productData = Some product /\
      (requested (Checkout.ProductData.productId productData) cart
         <= Product.inStock product)%Z.

(** The products of [w'] are those of [w] up to their stock. *)
Definition same_catalog (w w' : World) : Prop :=
  forall id,
    Product.set_inStock 0 <$> products (db w') !! id =
    Product.set_inStock 0 <$> products (db w) !! id.

(** The transaction of a checkout has committed: the uuids were free, the
    products of the cart exist, and the database has the new order, the
    new shipping details and every stock less what the cart asks of the
    product. *)
Definition committed (env : Checkout.Env) (storeId : string)
    (cart : list Checkout.ProductData.t) (shipping : ShippingDetails.t)
    (w w' : World) : Prop :=
  uuids_free env w /\
  (forall productData, productData ∈ cart ->
     is_Some (products (db w) !! Checkout.ProductData.productId productData)) /\
  orders (db w') = <[Checkout.uuid_order env := new_order env storeId cart]> (orders (db w)) /\
  shippingDetails (db w') =
    <[Checkout.uuid_shippingDetails env := shipping]> (shippingDetails (db w)) /\
  (forall id,
      products (db w') !! id = taken (requested id cart) <$> products (db w) !! id).

(** ** What the requests keep *)

(** An order of [w] is still there in [w'], with its store, its items and
    its shipping details, and paid if it was. *)
Definition orders_kept (w w' : World) : Prop :=
  forall id order, orders (db w) !! id = Some order ->
    exists order',
      orders (db w') !! id = Some order' /\
      Order.storeId order' = Order.storeId order /\
      Order.isSent order' = Order.isSent order /\
      Order.orderItems order' = Order.orderItems order /\
      Order.shippingDetailsId order' = Order.shippingDetailsId order /\
      (Order.isPaid order = true -> Order.isPaid order' = true).

(** The shipping details of [w] are in [w'] as they were. *)
Definition shippingDetails_kept (w w' : World) : Prop :=
  forall id row,
    shippingDetails (db w) !! id = Some row -> shippingDetails (db w') !! id = Some row.

(** The relations of the schema hold: the product of every order item and
    the shipping details of every order exist, and no two orders have the
    same shipping details ([shippingDetailsId] is [@unique]).  The
    database does not enforce them ([relationMode = "prisma"]). *)
Definition well_linked (w : World) : Prop :=
  (forall id order item,
      orders (db w) !! id = Some order -> item ∈ Order.orderItems order ->
      is_Some (products (db w) !! OrderItem.productId item)) /\
  (forall id order shippingDetailsId,
      orders (db w) !! id = Some order ->
      Order.shippingDetailsId order = Some shippingDetailsId ->
      is_Some (shippingDetails (db w) !! shippingDetailsId)) /\
  (forall id1 id2 order1 order2 shippingDetailsId,
      orders (db w) !! id1 = Some order1 ->
      orders (db w) !! id2 = Some order2 ->
      Order.shippingDetailsId order1 = Some shippingDetailsId ->
      Order.shippingDetailsId order2 = Some shippingDetailsId ->
      id1 = id2).

(** What one request does to the database: nothing, or it commits the
    transaction of a checkout, or it marks an order paid. *)
Definition effect (w w' : World) : Prop :=
  db w' = db w \/
  (exists env storeId cart shipping, committed env storeId cart shipping w w') \/
  (exists id order,
      orders (db w) !! id = Some order /\
      db w' =
        with_orders
          (<[id := Order.apply (Order.mkData (Some true) None None) order]> (orders (db w)))
          (db w)).

(** ** The reference of a transaction

    [tx_ref.match(/order_(.+)_\d+/)], on strings of 8-bit characters. *)

Module OrderRef.

(** [\d] *)
Definition digit (c : ascii) : bool :=
  (48 <=? nat_of_ascii c)%nat && (nat_of_ascii c <=? 57)%nat.

(** The characters that [.] does not match: the line terminators (line
    feed and carriage return; U+2028 and U+2029 are not 8-bit
    characters). *)
Definition terminator (c : ascii) : bool :=
  (c =? "010")%char || (c =? "013")%char.

Fixpoint all (f : ascii -> bool) (s : string) : bool :=
  match s with
  | EmptyString => true
  | String c s => f c && all f s
  end.

(** A non-empty string without line terminators, as a uuid is. *)
Definition plain (s : string) : bool :=
  negb (s =? "")%string && all (fun c => negb (terminator c)) s.

(** A non-empty string of digits, as [Date.now()] prints. *)
Definition numeral (s : string) : bool :=
  negb (s =? "")%string && all digit s.

(** [_\d+] matches at the head of the string. *)
Definition tail (s : string) : bool :=
  match s with
  | String c (String d _) => (c =? "_")%char && digit d
  | _ => false
  end.

(** What [(.+)] captures when [(.+)_\d+] matches at the head of the
    string: [.+] is greedy, so it is the longest non-empty run of
    characters other than line terminators that [_\d+] follows. *)
Fixpoint capture (s : string) : option string :=
  match s with
  | EmptyString => None
  | String c s =>
      if terminator c then None
      else
        match capture s with
        | Some longer => Some (String c longer)
        | None => if tail s then Some (String c EmptyString) else None
        end
  end.

(** The rest of the string after the prefix, if it starts with it. *)
Fixpoint strip (prefix s : string) : option string :=
  match prefix, s with
  | EmptyString, _ => Some s
  | String a prefix, String b s => if (a =? b)%char then strip prefix s else None
  | String _ _, EmptyString => None
  end.

(** [s.match(/order_(.+)_\d+/)], as far as the handler reads it: the
    first group of the leftmost match ([None]: no match). *)
Fixpoint exec (s : string) : option string :=
  match strip "order_" s ≫= capture with
  | Some orderId => Some orderId
  | None =>
      match s with
      | EmptyString => None
      | String _ s => exec s
      end
  end.

End OrderRef.

(** ** A store with two products *)
Module Market.

(** The product "P2". *)
Definition gadget (cents stock : Z) : Product.t :=
  Product.mk "Gadget" (Decimal.mk cents 2) stock "tools" false true "store" "small".

(** A store with two products and no order. *)
Definition shop : World :=
  mkWorld (mkDB {["P1" := Sample.widget 1000 5; "P2" := gadget 250 4]} ∅ ∅) [] [].

(** A cart that names "P1" twice. *)
Definition cart : list Checkout.ProductData.t :=
  [Checkout.ProductData.mk "P1" 2; Checkout.ProductData.mk "P2" 1;
   Checkout.ProductData.mk "P1" 3].

Definition request : Checkout.RequestBody :=
  Checkout.mkRequestBody (Some cart) (Some Sample.shipping).

(** A later request, for one unit of "P2". *)
Definition second : Checkout.RequestBody :=
  Checkout.mkRequestBody (Some [Checkout.ProductData.mk "P2" 1]) (Some Sample.shipping).

(** The environment of a request whose payment the processor refuses. *)
Definition refused : Checkout.Env :=
  Checkout.mkEnv "S1" "O1" "1700000000000" "https://buy.igiti.africa"
    (fun _ => inr (Checkout.mkFlutterwaveData (Some "error") (Some "Invalid key") None)).

End Market.

(** * Properties *)

(** ** The sample store *)

Lemma sound_shop cents stock : (0 <= stock)%Z -> sound (Sample.shop cents stock).
Proof.
  intros Hstock. split.
  - intros id p Hp. cbn in Hp. apply lookup_singleton_Some in Hp as [_ <-]. exact Hstock.
  - intros id v Hin. cbn in Hin. by apply elem_of_nil in Hin.
Qed.

Lemma uuids_free_shop cents stock : uuids_free Sample.env (Sample.shop cents stock).
Proof.
  split; [reflexivity|]. split; [reflexivity|].
  cbn. apply map_Exists_empty.
Qed.

Lemma delivers_completed orderId :
  delivers Sample.stripe orderId (Some "good") (Sample.completed orderId).
Proof. split; reflexivity. Qed.

(** ** The Prisma statements *)

Lemma db_sent s w : db (sent s w) = db w.
Proof. reflexivity. Qed.

Lemma db_console_error e w : db (console_error e w) = db w.
Proof. reflexivity. Qed.


Lemma transaction_returns {A} (callback : Async A) w a w' :
  callback w = (inr a, w') ->
  Prisma.transaction callback w = (inr a, w').
Proof. unfold Prisma.transaction. now intros ->. Qed.

(** A transaction that throws leaves the database as it found it. *)
Lemma transaction_rollback {A} (callback : Async A) w e w' :
  Prisma.transaction callback w = (inl e, w') -> db w' = db w.
Proof.
  unfold Prisma.transaction.
  destruct (callback w) as [[e'|a] w'']; intros [= _ <-]; reflexivity.
Qed.

(** ** The checkout loop *)

Lemma reserveStock_cons productData rest line_items w :
  Checkout.reserveStock (productData :: rest) line_items w =
  let id := Checkout.ProductData.productId productData in
  match products (db w) !! id with
  | None => (inl (NotFound id), sent (ProductFindUnique id) w)
  | Some product =>
      if (Product.inStock product <? Checkout.ProductData.quantity productData)%Z
      then (inl (InsufficientStock (Product.name product)), sent (ProductFindUnique id) w)
      else Checkout.reserveStock rest
             (line_items ++ [Checkout.line_item productData product])
             (reserved productData product w)
  end.
Proof.
  cbn [Checkout.reserveStock]. unfold bind at 1.
  unfold Prisma.product_findUnique.
  destruct (products (db w) !! Checkout.ProductData.productId productData)
    as [product|] eqn:Hfind; cbn zeta; [|reflexivity].
  destruct (Product.inStock product <? _)%Z; [reflexivity|].
  unfold bind, Prisma.product_update. cbn zeta. rewrite !db_sent, Hfind.
  reflexivity.
Qed.

Lemma products_reserved productData product w :
  products (db (reserved productData product w)) =
  <[Checkout.ProductData.productId productData :=
      Product.set_inStock
        (Product.inStock product - Checkout.ProductData.quantity productData) product]>
    (products (db w)).
Proof. reflexivity. Qed.

Lemma orders_reserved productData product w :
  orders (db (reserved productData product w)) = orders (db w).
Proof. reflexivity. Qed.

Lemma shippingDetails_reserved productData product w :
  shippingDetails (db (reserved productData product w)) = shippingDetails (db w).
Proof. reflexivity. Qed.

(** The loop writes products only. *)
Lemma reserveStock_frame cart line_items w :
  orders (db (Checkout.reserveStock cart line_items w).2) = orders (db w) /\
  shippingDetails (db (Checkout.reserveStock cart line_items w).2) =
    shippingDetails (db w) /\
  stderr (Checkout.reserveStock cart line_items w).2 = stderr w.
Proof.
  revert line_items w.
  induction cart as [|productData rest IH]; intros line_items w; [done|].
  rewrite reserveStock_cons. cbn zeta.
  destruct (products (db w) !! _) as [product|]; [|done].
  destruct (Product.inStock product <? _)%Z; [done|].
  destruct (IH (line_items ++ [Checkout.line_item productData product])
               (reserved productData product w)) as (-> & -> & ->).
  done.
Qed.



Lemma priced_ext m1 m2 cart :
  (forall id, id ∈ cart_ids cart -> m1 !! id = m2 !! id) ->
  priced m1 cart = priced m2 cart.
Proof.
  induction cart as [|first rest IH]; intros Hext; [done|].
  unfold priced in *. cbn [omap list_omap].
  rewrite (Hext (Checkout.ProductData.productId first)) by apply list_elem_of_here.
  rewrite IH; [done|].
  intros id Hid. apply Hext. by apply list_elem_of_further.
Qed.

(** On a cart of distinct products that are all in stock the loop goes
    through: it prices the items as the store had them, takes the quantity
    of each item from its product and leaves the other products alone. *)
Lemma reserveStock_in_stock cart line_items w :
  NoDup (cart_ids cart) ->
  (forall productData, productData ∈ cart -> in_stock w productData) ->
  exists w',
    Checkout.reserveStock cart line_items w =
      (inr (line_items ++ priced (products (db w)) cart), w') /\
    (forall productData product,
        productData ∈ cart ->
        products (db w) !! Checkout.ProductData.productId productData = Some product ->
        products (db w') !! Checkout.ProductData.productId productData =
          Some (taken (Checkout.ProductData.quantity productData) product)) /\
    (forall id, id ∉ cart_ids cart -> products (db w') !! id = products (db w) !! id).
Proof.
  revert line_items w.
  induction cart as [|first rest IH]; intros line_items w Hnodup Hstock.
  { exists w. cbn. rewrite app_nil_r. split; [done|]. split; [|done].
    intros ? ? Hin. by apply elem_of_nil in Hin. }
  cbn [cart_ids map] in Hnodup. apply NoDup_cons in Hnodup as [Hfresh Hnodup].
  destruct (Hstock first) as (product & Hfirst & Hq); [apply list_elem_of_here|].
  rewrite reserveStock_cons. cbn zeta. rewrite Hfirst.
  destruct (Z.ltb_spec (Product.inStock product) (Checkout.ProductData.quantity first))
    as [Hshort|_]; [lia|].
  assert (Hsame : forall id, id ∈ cart_ids rest ->
            products (db (reserved first product w)) !! id = products (db w) !! id).
  { intros id Hid. rewrite products_reserved, lookup_insert_ne; [done|].
    intros <-. done. }
  destruct (IH (line_items ++ [Checkout.line_item first product])
               (reserved first product w)) as (w' & Hrun & Htaken & Hframe).
  { done. }
  { intros pd Hpd. destruct (Hstock pd) as (p & Hp & Hle).
    { by apply list_elem_of_further. }
    exists p. split; [|done]. rewrite Hsame; [done|].
    apply list_elem_of_fmap. eauto. }
  exists w'. split; [|split].
  - rewrite Hrun. f_equal. f_equal.
    rewrite (priced_ext _ (products (db w)) rest) by done.
    unfold priced at 2. cbn [omap list_omap]. rewrite Hfirst. cbn.
    by rewrite <- app_assoc.
  - intros pd p Hin Hp. apply elem_of_cons in Hin as [->|Hin].
    + rewrite Hframe by done. rewrite products_reserved, lookup_insert_eq.
      by simplify_eq.
    + apply Htaken; [done|]. rewrite Hsame; [done|].
      apply list_elem_of_fmap. eauto.
  - intros id Hid. cbn [cart_ids map] in Hid.
    apply not_elem_of_cons in Hid as [Hne Hid].
    rewrite Hframe by done. rewrite products_reserved, lookup_insert_ne; done.
Qed.

Lemma priced_in_stock w cart :
  (forall productData, productData ∈ cart -> in_stock w productData) ->
  length (priced (products (db w)) cart) = length cart.
Proof.
  induction cart as [|first rest IH]; intros Hstock; [done|].
  destruct (Hstock first) as (product & Hfirst & _); [apply list_elem_of_here|].
  unfold priced in *. cbn [omap list_omap]. rewrite Hfirst. cbn.
  rewrite IH; [done|]. intros pd Hpd. apply Hstock. by apply list_elem_of_further.
Qed.


(** A negative quantity is accepted and raises the stock: after -10 units
    of "P1" the cart may ask for 12, though the product had 5. *)
Lemma createOrder_negative_quantity :
  let cart := [Checkout.ProductData.mk "P1" (-10); Checkout.ProductData.mk "P1" 12] in
  exists a w',
    Checkout.createOrder Sample.env "store" cart Sample.shipping (Sample.shop 1000 5) =
      (inr a, w') /\
    stock w' "P1" = Some 3%Z.
Proof. cbn zeta. do 2 eexists. split; vm_compute; reflexivity. Qed.



(** On a non-empty cart of distinct products that are all in stock, with
    free uuids, the transaction commits: the rows it leaves. *)
Lemma createOrder_commits env storeId cart shipping w :
  cart <> [] ->
  NoDup (cart_ids cart) ->
  (forall productData, productData ∈ cart -> in_stock w productData) ->
  uuids_free env w ->
  exists w',
    Checkout.createOrder env storeId cart shipping w =
      (inr (Checkout.uuid_order env,
            new_order env storeId cart,
            Checkout.totalAmount (priced (products (db w)) cart)), w') /\
    orders (db w') = <[Checkout.uuid_order env := new_order env storeId cart]> (orders (db w)) /\
    shippingDetails (db w') =
      <[Checkout.uuid_shippingDetails env := shipping]> (shippingDetails (db w)) /\
    (forall productData product,
        productData ∈ cart ->
        products (db w) !! Checkout.ProductData.productId productData = Some product ->
        products (db w') !! Checkout.ProductData.productId productData =
          Some (taken (Checkout.ProductData.quantity productData) product)) /\
    (forall id, id ∉ cart_ids cart -> products (db w') !! id = products (db w) !! id).
Proof.
  intros Hne Hnodup Hstock (Hship & Horder & Hlink).
  destruct (reserveStock_in_stock cart [] w Hnodup Hstock)
    as (w1 & Hrun & Htaken & Hframe).
  destruct (reserveStock_frame cart [] w) as (Horders1 & Hship1 & _).
  rewrite Hrun in Horders1, Hship1. cbn [snd] in Horders1, Hship1.
  eexists. split; [|split; [|split; [|split]]].
  - unfold Checkout.createOrder. apply transaction_returns.
    unfold Checkout.callback, bind. rewrite Hrun. cbn [app].
    rewrite priced_in_stock by done.
    destruct cart as [|first rest]; [done|]. cbn [length Nat.eqb].
    unfold Prisma.shippingDetails_create. cbn zeta.
    rewrite db_sent, Hship1, Hship.
    unfold Prisma.order_create. cbn zeta. cbn [db sent with_db with_shippingDetails orders].
    rewrite Horders1, Horder. cbn [Order.shippingDetailsId].
    rewrite bool_decide_eq_false_2 by done. reflexivity.
  - reflexivity.
  - reflexivity.
  - exact Htaken.
  - exact Hframe.
Qed.

(** ** Interleaved tasks *)

Section InterleavingFacts.

Context {T : Type}.
Variable step : T -> World -> T * World.
Variable rejected : T -> option Error.

Lemma advance_idle i p w :
  tasks p !! i = None -> advance step rejected i p w = (p, w).
Proof. unfold advance. by intros ->. Qed.

Lemma advance_task i p w t :
  tasks p !! i = Some t ->
  advance step rejected i p w =
    (mkPool (<[i := (step t w).1]> (tasks p))
            (match rejection p with
             | Some e => Some e
             | None => rejected (step t w).1
             end),
     (step t w).2).
Proof. unfold advance. intros ->. by destruct (step t w). Qed.

Lemma run_cons i sched p w :
  run step rejected (i :: sched) p w =
  run step rejected sched (advance step rejected i p w).1 (advance step rejected i p w).2.
Proof. cbn. by destruct (advance step rejected i p w). Qed.

Lemma run_app s1 s2 p w :
  run step rejected (s1 ++ s2) p w =
  run step rejected s2 (run step rejected s1 p w).1 (run step rejected s1 p w).2.
Proof.
  revert p w. induction s1 as [|i s1 IH]; intros p w; [done|].
  rewrite <- app_comm_cons, !run_cons. apply IH.
Qed.

(** What every statement preserves holds after every schedule. *)
Lemma run_invariant (I : Pool T -> World -> Prop) :
  (forall i p w t, tasks p !! i = Some t -> I p w ->
     I (advance step rejected i p w).1 (advance step rejected i p w).2) ->
  forall sched p w, I p w ->
    I (run step rejected sched p w).1 (run step rejected sched p w).2.
Proof.
  intros Hstep sched. induction sched as [|i sched IH]; intros p w HI; [done|].
  rewrite run_cons. apply IH.
  destruct (tasks p !! i) as [t|] eqn:Ht; [by eapply Hstep|].
  by rewrite advance_idle.
Qed.

(** An invariant of the world and of each task on its own. *)
Lemma run_tasks_invariant (J : World -> Prop) (C : T -> Prop) :
  (forall t w, C t -> J w -> J (step t w).2 /\ C (step t w).1) ->
  forall sched p w,
    J w -> (forall t, t ∈ tasks p -> C t) ->
    J (run step rejected sched p w).2 /\
    (forall t, t ∈ tasks (run step rejected sched p w).1 -> C t).
Proof.
  intros Hstep sched p w HJ HC.
  apply (run_invariant (fun p w => J w /\ forall t, t ∈ tasks p -> C t)); [|done].
  clear p w HJ HC.
  intros i p w t Hi [HJ HC]. rewrite (advance_task _ _ _ _ Hi). cbn [fst snd tasks].
  destruct (Hstep t w) as [HJ' HC']; [|done|].
  { apply HC, list_elem_of_lookup. eauto. }
  split; [done|]. intros t' (j & Hj)%list_elem_of_lookup.
  destruct (decide (i = j)) as [->|Hne].
  - rewrite list_lookup_insert_eq in Hj by by eapply lookup_lt_Some. by simplify_eq.
  - rewrite list_lookup_insert_ne in Hj by done.
    apply HC, list_elem_of_lookup. eauto.
Qed.

End InterleavingFacts.

(** ** The item tasks of the Stripe handler *)

(** The statement of a task, by cases. *)
Lemma step_pending item w :
  Webhook.step (Webhook.Pending item) w =
  (match products (db w) !! OrderItem.productId item with
   | None => Webhook.Rejected (NotFound (OrderItem.productId item))
   | Some product =>
       if (Product.inStock product <? OrderItem.quantity item)%Z
       then Webhook.Rejected (InsufficientStock (OrderItem.productId item))
       else Webhook.Found item product
   end,
   sent (ProductFindUnique (OrderItem.productId item)) w).
Proof.
  cbn. destruct (products (db w) !! OrderItem.productId item) as [product|]; [|done].
  by destruct (Product.inStock product <? OrderItem.quantity item)%Z.
Qed.

Lemma step_found item product w :
  Webhook.step (Webhook.Found item product) w =
  let id := OrderItem.productId item in
  let v := (Product.inStock product - OrderItem.quantity item)%Z in
  match products (db w) !! id with
  | None => (Webhook.Rejected RecordNotFound, sent (ProductUpdate id v) w)
  | Some current =>
      (Webhook.Fulfilled (Product.set_inStock v current),
       with_db (with_products (<[id := Product.set_inStock v current]> (products (db w)))
                              (db w))
               (sent (ProductUpdate id v) w))
  end.
Proof.
  cbn. unfold Prisma.product_update. cbn zeta. rewrite db_sent.
  by destruct (products (db w) !! OrderItem.productId item).
Qed.

(** *** Stock never goes below zero *)

Lemma writes_sent s w :
  match s with ProductUpdate _ v => (0 <= v)%Z | _ => True end ->
  writes_nonneg w -> writes_nonneg (sent s w).
Proof.
  intros Hs Hw id v. cbn. rewrite elem_of_app, list_elem_of_singleton.
  intros [Hin|<-]; [by eapply Hw|done].
Qed.

Lemma sound_sent s w :
  match s with ProductUpdate _ v => (0 <= v)%Z | _ => True end ->
  sound w -> sound (sent s w).
Proof. intros Hs [Hnn Hw]. split; [done|by apply writes_sent]. Qed.

Lemma sound_console_error e w : sound w -> sound (console_error e w).
Proof. done. Qed.

(** A write of a non-negative stock keeps the store sound. *)
Lemma sound_write id v current w :
  (0 <= v)%Z ->
  sound w ->
  sound (with_db (with_products (<[id := Product.set_inStock v current]> (products (db w)))
                                (db w))
                 (sent (ProductUpdate id v) w)).
Proof.
  intros Hv [Hnn Hw]. split.
  - intros id' p. cbn. destruct (decide (id = id')) as [->|Hne].
    + rewrite lookup_insert_eq. by intros [= <-].
    + rewrite lookup_insert_ne by done. apply Hnn.
  - by apply (writes_sent (ProductUpdate id v)).
Qed.

Lemma step_sound t w :
  checked t -> sound w ->
  sound (Webhook.step t w).2 /\ checked (Webhook.step t w).1.
Proof.
  intros Ht Hsound. destruct t as [item|item product|updated|e]; [| |done..].
  - rewrite step_pending. cbn [fst snd]. split; [by apply sound_sent|].
    destruct (products (db w) !! OrderItem.productId item) as [product|]; [|done].
    by destruct (Z.ltb_spec (Product.inStock product) (OrderItem.quantity item)).
  - rewrite step_found. cbn zeta. cbn in Ht.
    destruct (products (db w) !! OrderItem.productId item) as [current|].
    + cbn [fst snd]. split; [|done]. apply sound_write; [lia|done].
    + cbn [fst snd]. split; [|done]. apply sound_sent; [lia|done].
Qed.

Lemma run_nonneg sched items w :
  sound w ->
  sound (run Webhook.step Webhook.rejected sched (started items) w).2.
Proof.
  intros Hsound.
  apply (run_tasks_invariant Webhook.step Webhook.rejected sound checked); [|done|].
  - intros t w' Ht Hw'. by apply step_sound.
  - intros t (item & -> & _)%list_elem_of_fmap. done.
Qed.

(** ** The Stripe handler *)

(** The object that the handler gives as [data] has keys that [model
    Order] does not declare: [address] and [phone]. *)
Lemma confirmation_invalid event : Order.valid (confirmation event) = false.
Proof. reflexivity. Qed.

Lemma order_update_invalid id d w :
  Order.valid d = false -> Prisma.order_update id d w = (inl ValidationError, w).
Proof. unfold Prisma.order_update. by intros ->. Qed.

(** The [order.update] of a "checkout completed" event is rejected before
    a statement is sent; the [catch] prints the error and the handler
    answers with status 200. *)
Lemma webhook_rejected stripe sched body signature event w :
  delivers stripe body signature event ->
  Webhook.POST stripe sched body signature w =
    (mkResponse 200 NoBody false, console_error ValidationError w).
Proof.
  intros [Hevent Htype]. unfold Webhook.POST.
  rewrite Hevent, Htype. cbn [String.eqb Ascii.eqb Bool.eqb].
  by rewrite (order_update_invalid _ _ _ (confirmation_invalid event)).
Qed.

(** Whatever the request, the handler writes no row and sends no
    statement. *)
Lemma webhook_untouched stripe sched body signature w :
  db (Webhook.POST stripe sched body signature w).2 = db w /\
  journal (Webhook.POST stripe sched body signature w).2 = journal w.
Proof.
  unfold Webhook.POST.
  destruct (Webhook.constructEvent _ _ _ _) as [message|event]; [done|].
  destruct (_ =? _)%string; [|done].
  by rewrite (order_update_invalid _ _ _ (confirmation_invalid event)).
Qed.

(** C6.  A request whose signature does not verify is answered with status
    400 and the message of the verification error, and the world is
    untouched: no statement was sent to the store (no row read, none
    written) and nothing was printed. *)
Theorem invalid_signature_rejected stripe sched body signature message w :
  Webhook.constructEvent stripe body signature (Webhook.STRIPE_WEBHOOK_SECRET stripe)
    = inl message ->
  Webhook.POST stripe sched body signature w =
    (mkResponse 400 (Text ("Webhook Error: " ++ message)) false, w).
Proof. unfold Webhook.POST. by intros ->. Qed.

Lemma invalid_signature_witness :
  let w := Sample.shop_with_order 5 2 in
  Webhook.POST Sample.stripe [] "O1" (Some "forged") w =
    (mkResponse 400
       (Text ("Webhook Error: " ++
              "No signatures found matching the expected signature for payload."))
       false, w).
Proof.
  apply (invalid_signature_rejected Sample.stripe [] "O1" (Some "forged")
           "No signatures found matching the expected signature for payload."
           (Sample.shop_with_order 5 2)).
  reflexivity.
Defined.

(** C5 fails as stated: for an event whose token "O9" matches no order the
    handler does not fail; it answers with the success acknowledgement. *)
Lemma unknown_order_counterexample :
  let answer :=
    Webhook.POST Sample.stripe [] "O9" (Some "good") (Sample.shop_with_order 5 2) in
  orders (db (Sample.shop_with_order 5 2)) !! "O9" = None /\
  answer.1 = mkResponse 200 NoBody false.
Proof. vm_compute. split; reflexivity. Qed.

(** C5, as amended.  For a "checkout completed" event whose correlation
    token matches no order, the handler's [order.update] fails; the handler
    prints that error and answers with the success acknowledgement (status
    200, no body).  No row of the database changes. *)
Theorem unknown_order_acknowledged stripe sched body signature event w :
  delivers stripe body signature event ->
  (forall id, Webhook.Session.metadata_orderId (Webhook.Event.object event) = Some id ->
     orders (db w) !! id = None) ->
  Webhook.POST stripe sched body signature w =
    (mkResponse 200 NoBody false, console_error ValidationError w) /\
  db (Webhook.POST stripe sched body signature w).2 = db w.
Proof.
  intros Hdelivers _.
  by rewrite (webhook_rejected _ _ _ _ _ _ Hdelivers).
Qed.

Lemma unknown_order_witness :
  let w := Sample.shop_with_order 5 2 in
  Webhook.POST Sample.stripe [] "O9" (Some "good") w =
    (mkResponse 200 NoBody false, console_error ValidationError w) /\
  db (Webhook.POST Sample.stripe [] "O9" (Some "good") w).2 = db w.
Proof.
  apply (unknown_order_acknowledged Sample.stripe [] "O9" (Some "good")
           (Sample.completed "O9") (Sample.shop_with_order 5 2)).
  - apply delivers_completed.
  - intros id [= <-]. reflexivity.
Defined.







(** ** Checkout requests *)

(** The database after a well-formed request is the one its transaction
    leaves, whatever the payment processor answers. *)
Lemma POST_db env req storeId cart shipping w :
  Checkout.body_products req = Some cart ->
  cart <> [] ->
  Checkout.body_shippingDetails req = Some shipping ->
  db (Checkout.POST env req storeId w).2 =
  db (Checkout.createOrder env storeId cart shipping w).2.
Proof.
  intros Hcart Hne Hship. unfold Checkout.POST. rewrite Hcart, Hship.
  destruct cart as [|first rest]; [done|].
  destruct (Checkout.createOrder _ _ _ _ _) as [[e|[[orderId order] total]] w']; [done|].
  by destruct (Checkout.initiatePayment _ _ _ _).
Qed.

Lemma stock_taken w id quantity product :
  products (db w) !! id = Some (taken quantity product) ->
  stock w id = Some (Product.inStock product - quantity)%Z.
Proof. unfold stock. by intros ->. Qed.

(** C3 fails as stated, twice.  A cart that asks twice for 3 units of a
    product with 5 in stock has every quantity within the stock, and
    [createOrder] fails on it.  And for 3 units at the price 0.07 the total
    returned is not the binary64 number nearest to the exact sum 0.21: the
    total is accumulated in floating point (0.07 * 100 is already
    7.000000000000001). *)
Lemma createOrder_in_stock_counterexample :
  (let cart := [Checkout.ProductData.mk "P1" 3; Checkout.ProductData.mk "P1" 3] in
   stock (Sample.shop 1000 5) "P1" = Some 5%Z /\
   (Checkout.createOrder Sample.env "store" cart Sample.shipping (Sample.shop 1000 5)).1 =
     inl (InsufficientStock "Widget")) /\
  (let w := Sample.shop 7 5 in
   exists order total w',
     Checkout.createOrder Sample.env "store" (Sample.cart 3) Sample.shipping w =
       (inr ("O1", order, total), w') /\
     total <> Decimal.toNumber (exact_total (products (db w)) (Sample.cart 3))).
Proof.
  split.
  - vm_compute. split; reflexivity.
  - cbn zeta. do 3 eexists. split.
    + vm_compute. reflexivity.
    + intros Heq.
      apply (f_equal (PrimFloat.eqb
                        (Decimal.toNumber
                           (exact_total (products (db (Sample.shop 7 5))) (Sample.cart 3)))))
        in Heq.
      vm_compute in Heq. discriminate.
Qed.

(** C3, as amended.  On a non-empty cart of distinct products, each in
    stock for the quantity asked, [createOrder] succeeds (the uuids drawn
    for the new rows being free): it creates the shipping details and the
    unpaid order with the items of the cart, leaves every product of the
    cart with its stock less the quantity asked and the other products as
    they were, and returns as total the binary64 number
    [(sum of (price.toNumber() * 100) * quantity) / 100] at the prices of
    the store; the total is accumulated in floating point, not in exact
    decimals. *)
Theorem createOrder_in_stock env storeId cart shipping w :
  cart <> [] ->
  NoDup (cart_ids cart) ->
  (forall productData, productData ∈ cart -> in_stock w productData) ->
  uuids_free env w ->
  exists order w',
    Checkout.createOrder env storeId cart shipping w =
      (inr (Checkout.uuid_order env, order,
            Checkout.totalAmount (priced (products (db w)) cart)), w') /\
    Order.isPaid order = false /\
    Order.orderItems order = Checkout.orderItems_of cart /\
    orders (db w') !! Checkout.uuid_order env = Some order /\
    shippingDetails (db w') !! Checkout.uuid_shippingDetails env = Some shipping /\
    (forall productData product,
        productData ∈ cart ->
        products (db w) !! Checkout.ProductData.productId productData = Some product ->
        stock w' (Checkout.ProductData.productId productData) =
          Some (Product.inStock product - Checkout.ProductData.quantity productData)%Z) /\
    (forall id, id ∉ cart_ids cart -> stock w' id = stock w id).
Proof.
  intros Hne Hnodup Hstock Hfree.
  destruct (createOrder_commits env storeId cart shipping w)
    as (w' & Hrun & Horders & Hships & Htaken & Hframe); try done.
  exists (new_order env storeId cart), w'.
  split; [done|]. split; [done|]. split; [done|]. split; [|split; [|split]].
  - rewrite Horders. apply lookup_insert_eq.
  - rewrite Hships. apply lookup_insert_eq.
  - intros pd product Hin Hp. by apply stock_taken, Htaken.
  - intros id Hid. unfold stock. by rewrite Hframe.
Qed.

(** The example of the specification: 2 units at 10.00 with 5 in stock give
    the total 20 and leave 3. *)
Lemma createOrder_in_stock_witness :
  let w := Sample.shop 1000 5 in
  exists order w',
    Checkout.createOrder Sample.env "store" (Sample.cart 2) Sample.shipping w =
      (inr ("O1", order, Js.of_Z 20), w') /\
    Order.isPaid order = false /\
    stock w' "P1" = Some 3%Z.
Proof.
  destruct (createOrder_in_stock Sample.env "store" (Sample.cart 2) Sample.shipping
              (Sample.shop 1000 5))
    as (order & w' & Hrun & Hunpaid & _ & _ & _ & Hstock & _).
  - discriminate.
  - apply NoDup_singleton.
  - intros pd Hin. apply list_elem_of_singleton in Hin as ->.
    exists (Sample.widget 1000 5). split; [reflexivity|]. cbn. lia.
  - apply uuids_free_shop.
  - exists order, w'. split; [exact Hrun|]. split; [exact Hunpaid|].
    apply (Hstock (Checkout.ProductData.mk "P1" 2) (Sample.widget 1000 5)).
    + apply list_elem_of_here.
    + reflexivity.
Defined.

(** ** The notification of the payment processor *)

(** A successful charge whose reference names an order marks that order
    paid, with one statement. *)
Lemma paymentWebhook_charge order_ref tx_ref id order w :
  order_ref tx_ref = Some id ->
  orders (db w) !! id = Some order ->
  Checkout.paymentWebhook order_ref (charge tx_ref) w =
    (mkResponse 200 (JsonMessage "Order payment updated successfully") true,
     with_db
       (with_orders
          (<[id := Order.apply (Order.mkData (Some true) None None) order]> (orders (db w)))
          (db w))
       (sent (OrderUpdate id) w)).
Proof.
  intros Href Horder. unfold Checkout.paymentWebhook, charge.
  cbn [Checkout.event Checkout.data String.eqb Ascii.eqb Bool.eqb negb].
  rewrite Href. unfold Prisma.order_update.
  cbn [Order.valid Order.keys Order.key Order.data_isPaid Order.data_address
         Order.data_phone app forallb].
  rewrite bool_decide_eq_true_2 by (unfold Order.fields; set_solver).
  cbn [andb negb]. cbn zeta. by rewrite db_sent, Horder.
Qed.

(** What a notification does to the table of orders: nothing, or it marks
    paid the order that the reference of a successful charge names; it
    writes no other table. *)
Lemma paymentWebhook_orders order_ref payload w :
  let w' := (Checkout.paymentWebhook order_ref payload w).2 in
  products (db w') = products (db w) /\
  shippingDetails (db w') = shippingDetails (db w) /\
  (orders (db w') = orders (db w) \/
   exists tx_ref id order,
     payload = charge tx_ref /\
     order_ref tx_ref = Some id /\
     orders (db w) !! id = Some order /\
     orders (db w') =
       <[id := Order.apply (Order.mkData (Some true) None None) order]> (orders (db w))).
Proof.
  cbn zeta. destruct payload as [event data].
  destruct (String.eqb_spec event "charge.completed") as [->|Hevent].
  2: { unfold Checkout.paymentWebhook. cbn [Checkout.event].
       rewrite (proj2 (String.eqb_neq _ _) Hevent). cbn. auto. }
  destruct data as [[tx_ref status]|]; [|cbn; auto].
  destruct (String.eqb_spec status "successful") as [->|Hstatus].
  2: { unfold Checkout.paymentWebhook. cbn [Checkout.event Checkout.data].
       rewrite (proj2 (String.eqb_neq _ _) Hstatus). cbn. auto. }
  change (Checkout.mkPayload _ _) with (charge tx_ref).
  destruct (order_ref tx_ref) as [id|] eqn:Href.
  2: { unfold Checkout.paymentWebhook, charge. cbn. rewrite Href. auto. }
  destruct (orders (db w) !! id) as [order|] eqn:Horder.
  - rewrite (paymentWebhook_charge order_ref tx_ref id order w Href Horder). cbn [snd].
    split; [done|]. split; [done|]. right. by exists tx_ref, id, order.
  - unfold Checkout.paymentWebhook, charge. cbn [Checkout.event Checkout.data].
    cbn [String.eqb Ascii.eqb Bool.eqb negb]. rewrite Href.
    unfold Prisma.order_update. destruct (negb _); [auto|].
    cbn zeta. rewrite db_sent, Horder. auto.
Qed.




(** ** The payment status of an order *)












(** ** Stock is never negative *)

Lemma reserveStock_sound cart line_items w :
  sound w -> sound (Checkout.reserveStock cart line_items w).2.
Proof.
  revert line_items w.
  induction cart as [|first rest IH]; intros line_items w Hsound; [done|].
  rewrite reserveStock_cons. cbn zeta.
  destruct (products (db w) !! Checkout.ProductData.productId first) as [product|].
  2: { by apply sound_sent. }
  destruct (Z.ltb_spec (Product.inStock product) (Checkout.ProductData.quantity first)).
  { by apply sound_sent. }
  apply IH. unfold reserved.
  apply (sound_write _ _ _
           (sent (ProductFindUnique (Checkout.ProductData.productId first)) w)); [lia|].
  by apply sound_sent.
Qed.

Lemma sound_created d w :
  products d = products (db w) -> sound w -> sound (with_db d w).
Proof.
  intros Hd [Hnn Hw]. split; [|done].
  intros id p. cbn. rewrite Hd. apply Hnn.
Qed.

Lemma callback_sound env storeId cart shipping w :
  sound w -> sound (Checkout.callback env storeId cart shipping w).2.
Proof.
  intros Hsound. unfold Checkout.callback, bind.
  pose proof (reserveStock_sound cart [] w Hsound) as Hloop.
  destruct (Checkout.reserveStock cart [] w) as [[e|line_items] w1]; [done|].
  cbn [snd] in Hloop.
  destruct (length line_items =? 0)%nat; [done|].
  unfold Prisma.shippingDetails_create. cbn zeta. rewrite db_sent.
  assert (Hsent1 : sound (sent (ShippingDetailsCreate (Checkout.uuid_shippingDetails env)) w1))
    by by apply sound_sent.
  destruct (shippingDetails (db w1) !! Checkout.uuid_shippingDetails env); [done|].
  unfold Prisma.order_create. cbn zeta.
  set (w2 := with_db _ (sent (ShippingDetailsCreate _) w1)).
  assert (Hw2 : sound w2) by by apply sound_created.
  assert (Hsent2 : sound (sent (OrderCreate (Checkout.uuid_order env)) w2))
    by by apply sound_sent.
  destruct (orders (db (sent _ w2)) !! Checkout.uuid_order env); [done|].
  destruct (bool_decide _); [done|].
  cbn [snd]. by apply sound_created.
Qed.

Lemma transaction_sound {A} (callback : Async A) w :
  sound w -> sound (callback w).2 -> sound (Prisma.transaction callback w).2.
Proof.
  intros [Hnn _] Hcallback. unfold Prisma.transaction.
  destruct (callback w) as [[e|a] w']; [|done].
  destruct Hcallback as [_ Hw]. by split.
Qed.

Lemma sound_ext w w' :
  db w' = db w -> journal w' = journal w -> sound w -> sound w'.
Proof.
  intros Hdb Hjournal [Hnn Hw]. split.
  - intros id p. rewrite Hdb. apply Hnn.
  - intros id v. rewrite Hjournal. apply Hw.
Qed.

Lemma order_update_sound id d w :
  sound w -> sound (Prisma.order_update id d w).2.
Proof.
  intros Hsound. unfold Prisma.order_update.
  destruct (negb _); [done|]. destruct id as [id|]; [|done].
  cbn zeta. rewrite db_sent.
  assert (Hsent : sound (sent (OrderUpdate id) w)) by by apply sound_sent.
  destruct (orders (db w) !! id); [|done].
  cbn [snd]. by apply sound_created.
Qed.

Lemma served_sound w w' : served w w' -> sound w -> sound w'.
Proof.
  intros [-> | env req storeId -> | order_ref payload -> | stripe sched body signature ->]
         Hsound.
  - done.
  - unfold Checkout.POST.
    destruct (Checkout.body_products req) as [[|first rest]|]; [done| |done].
    destruct (Checkout.body_shippingDetails req) as [shipping|]; [|done].
    pose proof (transaction_sound _ w Hsound
                  (callback_sound env storeId (first :: rest) shipping w Hsound)) as Htx.
    fold (Checkout.createOrder env storeId (first :: rest) shipping) in Htx.
    destruct (Checkout.createOrder _ _ _ _ _) as [[e|[[orderId order] total]] w']; [done|].
    by destruct (Checkout.initiatePayment _ _ _ _).
  - unfold Checkout.paymentWebhook.
    destruct (negb _); [done|].
    destruct (Checkout.data payload) as [[tx_ref status]|]; [|done].
    destruct (negb _); [done|].
    destruct (order_ref tx_ref) as [orderId|]; [|done].
    pose proof (order_update_sound (Some orderId) (Order.mkData (Some true) None None) w
                  Hsound) as Hupd.
    by destruct (Prisma.order_update _ _ _) as [[e|o] w'].
  - destruct (webhook_untouched stripe sched body signature w) as [Hdb Hjournal].
    by apply (sound_ext w).
Qed.

(** The statements of an iteration, by cases. *)
Lemma iterate_find productData w :
  Checkout.iterate (Checkout.AtFind productData) w =
  (match products (db w) !! Checkout.ProductData.productId productData with
   | None => Checkout.Thrown (NotFound (Checkout.ProductData.productId productData))
   | Some product =>
       if (Product.inStock product <? Checkout.ProductData.quantity productData)%Z
       then Checkout.Thrown (InsufficientStock (Product.name product))
       else Checkout.AtUpdate productData product
   end,
   sent (ProductFindUnique (Checkout.ProductData.productId productData)) w).
Proof.
  cbn. destruct (products (db w) !! Checkout.ProductData.productId productData)
    as [product|]; [|done].
  by destruct (Product.inStock product <? Checkout.ProductData.quantity productData)%Z.
Qed.

Lemma iterate_update productData product w :
  Checkout.iterate (Checkout.AtUpdate productData product) w =
  let id := Checkout.ProductData.productId productData in
  let v := (Product.inStock product - Checkout.ProductData.quantity productData)%Z in
  match products (db w) !! id with
  | None => (Checkout.Thrown RecordNotFound, sent (ProductUpdate id v) w)
  | Some current =>
      (Checkout.Reserved (Checkout.line_item productData product),
       with_db (with_products (<[id := Product.set_inStock v current]> (products (db w)))
                              (db w))
               (sent (ProductUpdate id v) w))
  end.
Proof.
  cbn. unfold Prisma.product_update. cbn zeta. rewrite db_sent.
  by destruct (products (db w) !! Checkout.ProductData.productId productData).
Qed.

Lemma statement_sound t w :
  covered t -> sound w -> sound (statement t w).2 /\ covered (statement t w).1.
Proof.
  intros Ht Hsound. destruct t as [task|iteration]; cbn [statement].
  - destruct (step_sound task w Ht Hsound) as [Hw Ht'].
    by destruct (Webhook.step task w).
  - assert (Hit : sound (Checkout.iterate iteration w).2 /\
                  reserving (Checkout.iterate iteration w).1).
    { destruct iteration as [productData|productData product|item|e]; [| |done..].
      - rewrite iterate_find. cbn [fst snd]. split; [by apply sound_sent|].
        destruct (products (db w) !! Checkout.ProductData.productId productData)
          as [product|]; [|done].
        by destruct (Z.ltb_spec (Product.inStock product)
                                (Checkout.ProductData.quantity productData)).
      - rewrite iterate_update. cbn zeta. cbn in Ht.
        destruct (products (db w) !! Checkout.ProductData.productId productData)
          as [current|]; cbn [fst snd]; (split; [|done]).
        + apply sound_write; [lia|done].
        + apply sound_sent; [lia|done]. }
    by destruct (Checkout.iterate iteration w).
Qed.

(** C9.  From a store in which no product has a negative stock (and whose
    journal shows no write of one), no stock is ever negative and no
    statement ever writes a negative stock: after every sequence of
    requests served by the handlers, in every state the checkout loop goes
    through inside its transaction, in every state the item updates of
    the Stripe handler go through, under every schedule, and under every
    interleaving of the item updates and loop bodies of requests served at
    once.  A decrement that
    would go below zero is not sent: the checkout loop throws at the
    stock check, which rolls the transaction back, and the item task is
    rejected at the stock check, the store being as it was. *)
Theorem stock_never_negative w :
  sound w ->
  (forall w', rtc served w w' -> sound w') /\
  (forall cart line_items, sound (Checkout.reserveStock cart line_items w).2) /\
  (forall sched items,
     sound (run Webhook.step Webhook.rejected sched (started items) w).2) /\
  (forall sched ts,
     (forall t, t ∈ ts -> covered t) ->
     sound (run statement failed sched (mkPool ts None) w).2) /\
  (forall productData rest line_items,
     over_stock w productData ->
     exists name,
       Checkout.reserveStock (productData :: rest) line_items w =
         (inl (InsufficientStock name),
          sent (ProductFindUnique (Checkout.ProductData.productId productData)) w)) /\
  (forall item product,
     products (db w) !! OrderItem.productId item = Some product ->
     (Product.inStock product < OrderItem.quantity item)%Z ->
     Webhook.step (Webhook.Pending item) w =
       (Webhook.Rejected (InsufficientStock (OrderItem.productId item)),
        sent (ProductFindUnique (OrderItem.productId item)) w)).
Proof.
  intros Hsound. split; [|split; [|split; [|split; [|split]]]].
  - intros w' Hreach. induction Hreach as [w|w w1 w' Hstep _ IH]; [done|].
    apply IH. by eapply served_sound.
  - intros cart line_items. by apply reserveStock_sound.
  - intros sched items. by apply run_nonneg.
  - intros sched ts Hts.
    apply (run_tasks_invariant statement failed sound covered); [|done..].
    intros t w'. apply statement_sound.
  - intros pd rest line_items (product & Hp & Hlt).
    rewrite reserveStock_cons. cbn zeta. rewrite Hp.
    destruct (Z.ltb_spec (Product.inStock product) (Checkout.ProductData.quantity pd));
      [eauto|lia].
  - intros item product Hp Hlt. rewrite step_pending, Hp.
    by destruct (Z.ltb_spec (Product.inStock product) (OrderItem.quantity item)); [|lia].
Qed.

Lemma stock_never_negative_witness :
  let w := Sample.shop 1000 5 in
  sound w /\
  forall w', rtc served w w' -> sound w'.
Proof.
  cbn zeta. split; [apply sound_shop; lia|].
  apply (stock_never_negative (Sample.shop 1000 5)). apply sound_shop. lia.
Defined.

(** ** Two checkout requests at once *)

(** The statements of [Checkout.iterate] are those of the loop. *)
Lemma iterate_reserveStock productData line_items w :
  let found := Checkout.iterate (Checkout.AtFind productData) w in
  let updated := Checkout.iterate found.1 found.2 in
  Checkout.reserveStock [productData] line_items w =
    (match updated.1 with
     | Checkout.Reserved item => inr (line_items ++ [item])
     | Checkout.Thrown e => inl e
     | _ => inr line_items
     end,
     updated.2).
Proof.
  cbn zeta. rewrite reserveStock_cons. cbn zeta.
  cbn [Checkout.iterate]. unfold Prisma.product_findUnique.
  destruct (products (db w) !! Checkout.ProductData.productId productData)
    as [product|] eqn:Hfind; [|done].
  destruct (Product.inStock product <? Checkout.ProductData.quantity productData)%Z;
    [done|].
  cbn [fst snd Checkout.iterate]. unfold Prisma.product_update. cbn zeta.
  rewrite !db_sent, Hfind. reflexivity.
Qed.

Lemma iterate_sound id it w :
  reserving it ->
  sound w /\ is_Some (products (db w) !! id) ->
  (sound (Checkout.iterate it w).2 /\
   is_Some (products (db (Checkout.iterate it w).2) !! id)) /\
  reserving (Checkout.iterate it w).1.
Proof.
  intros Hit [Hsound Hrow].
  destruct it as [productData|productData product|item|e]; [| |done..].
  - cbn [Checkout.iterate]. unfold Prisma.product_findUnique.
    destruct (products (db w) !! Checkout.ProductData.productId productData)
      as [product|].
    + destruct (Z.ltb_spec (Product.inStock product)
                           (Checkout.ProductData.quantity productData));
        (split; [split; [by apply sound_sent|done]|done]).
    + split; [split; [by apply sound_sent|done]|done].
  - cbn [Checkout.iterate]. unfold Prisma.product_update. cbn zeta. rewrite db_sent.
    cbn in Hit.
    destruct (products (db w) !! Checkout.ProductData.productId productData)
      as [current|].
    + cbn [fst snd]. split; [split|done].
      * apply sound_write; [lia|done].
      * cbn. rewrite lookup_insert_is_Some. destruct Hrow as [p Hp].
        destruct (decide (Checkout.ProductData.productId productData = id)); eauto.
    + cbn [fst snd]. split; [split; [apply sound_sent; [lia|done]|done]|done].
Qed.

Lemma interleaved_nonneg sched id q1 q2 w :
  sound w -> is_Some (products (db w) !! id) ->
  exists left, stock (interleaved sched id q1 q2 w).2 id = Some left /\ (0 <= left)%Z.
Proof.
  intros Hsound Hrow.
  destruct (run_tasks_invariant Checkout.iterate Checkout.thrown
              (fun w => sound w /\ is_Some (products (db w) !! id)) reserving)
    with (sched := sched) (p := two_calls id q1 q2) (w := w)
    as [[[Hnn _] [p Hp]] _].
  - intros t w'. apply iterate_sound.
  - done.
  - intros t. cbn. rewrite !elem_of_cons, elem_of_nil. by intros [->|[->|[]]].
  - exists (Product.inStock p). unfold interleaved, stock. rewrite Hp. split; [done|].
    by eapply Hnn.
Qed.

Lemma products_written id row w s :
  products (db (with_db (with_products (<[id := row]> (products (db w))) (db w)) s)) !! id
  = Some row.
Proof. cbn. apply lookup_insert_eq. Qed.

(** The loop bodies one after the other: the first request reserves, and
    the second finds what the first left. *)
Lemma interleaved_serial id q1 q2 product w :
  products (db w) !! id = Some product ->
  (q1 <= Product.inStock product)%Z ->
  let first := Checkout.ProductData.mk id q1 in
  let second := Checkout.ProductData.mk id q2 in
  let r := interleaved [0; 0; 1; 1]%nat id q1 q2 w in
  if (Product.inStock product - q1 <? q2)%Z
  then
    tasks r.1 = [Checkout.Reserved (Checkout.line_item first product);
                 Checkout.Thrown (InsufficientStock (Product.name product))] /\
    stock r.2 id = Some (Product.inStock product - q1)%Z
  else
    tasks r.1 = [Checkout.Reserved (Checkout.line_item first product);
                 Checkout.Reserved (Checkout.line_item second (taken q1 product))] /\
    stock r.2 id = Some (Product.inStock product - q1 - q2)%Z.
Proof.
  intros Hp Hq1. cbn zeta. unfold interleaved, two_calls, stock.
  assert (Hfits : (Product.inStock product <? q1)%Z = false) by lia.
  rewrite run_cons. erewrite advance_task by reflexivity.
  rewrite iterate_find. cbn [Checkout.ProductData.productId Checkout.ProductData.quantity].
  rewrite Hp, Hfits. cbn [fst snd insert list_insert].
  rewrite run_cons. erewrite advance_task by reflexivity.
  rewrite iterate_update. cbn zeta.
  cbn [Checkout.ProductData.productId Checkout.ProductData.quantity].
  rewrite db_sent, Hp. cbn [fst snd tasks insert list_insert rejection Checkout.thrown].
  rewrite run_cons. erewrite advance_task by reflexivity.
  rewrite iterate_find. cbn [Checkout.ProductData.productId Checkout.ProductData.quantity].
  rewrite products_written.
  cbn [Product.inStock Product.set_inStock Product.name].
  destruct (Product.inStock product - q1 <? q2)%Z.
  - cbn [fst snd tasks insert list_insert rejection Checkout.thrown].
    rewrite run_cons. erewrite advance_task by reflexivity.
    cbn [Checkout.iterate fst snd tasks insert list_insert run].
    split; [done|]. rewrite db_sent, products_written. done.
  - cbn [fst snd tasks insert list_insert rejection Checkout.thrown].
    rewrite run_cons. erewrite advance_task by reflexivity.
    rewrite iterate_update. cbn zeta.
    cbn [Checkout.ProductData.productId Checkout.ProductData.quantity].
    rewrite db_sent, products_written.
    cbn [fst snd tasks insert list_insert run].
    split; [done|]. rewrite products_written. done.
Qed.

(** One after the other, the first request being over stock: it throws at
    its check and the second request finds the stock untouched. *)
Lemma interleaved_serial_short id q1 q2 product w :
  products (db w) !! id = Some product ->
  (Product.inStock product < q1)%Z ->
  (q2 <= Product.inStock product)%Z ->
  let second := Checkout.ProductData.mk id q2 in
  let r := interleaved [0; 0; 1; 1]%nat id q1 q2 w in
  tasks r.1 = [Checkout.Thrown (InsufficientStock (Product.name product));
               Checkout.Reserved (Checkout.line_item second product)] /\
  stock r.2 id = Some (Product.inStock product - q2)%Z.
Proof.
  intros Hp Hq1 Hq2. cbn zeta. unfold interleaved, two_calls, stock.
  assert (Hshort : (Product.inStock product <? q1)%Z = true) by lia.
  assert (Hfits : (Product.inStock product <? q2)%Z = false) by lia.
  rewrite run_cons. erewrite advance_task by reflexivity.
  rewrite iterate_find. cbn [Checkout.ProductData.productId Checkout.ProductData.quantity].
  rewrite Hp, Hshort. cbn [fst snd tasks insert list_insert rejection Checkout.thrown].
  rewrite run_cons. erewrite advance_task by reflexivity.
  cbn [Checkout.iterate fst snd tasks insert list_insert rejection Checkout.thrown].
  rewrite run_cons. erewrite advance_task by reflexivity.
  rewrite iterate_find. cbn [Checkout.ProductData.productId Checkout.ProductData.quantity].
  rewrite db_sent, Hp, Hfits.
  cbn [fst snd tasks insert list_insert rejection Checkout.thrown].
  rewrite run_cons. erewrite advance_task by reflexivity.
  rewrite iterate_update. cbn zeta.
  cbn [Checkout.ProductData.productId Checkout.ProductData.quantity].
  rewrite !db_sent, Hp. cbn [fst snd tasks insert list_insert run].
  split; [done|]. rewrite products_written. done.
Qed.

(** Both requests read before either writes: the state before the second
    write. *)
Lemma interleaved_reads_first id q1 q2 product w :
  products (db w) !! id = Some product ->
  (q1 <= Product.inStock product)%Z ->
  (q2 <= Product.inStock product)%Z ->
  let first := Checkout.ProductData.mk id q1 in
  let second := Checkout.ProductData.mk id q2 in
  interleaved [0; 1; 0]%nat id q1 q2 w =
    (mkPool [Checkout.Reserved (Checkout.line_item first product);
             Checkout.AtUpdate second product] None,
     reserved first product (sent (ProductFindUnique id) w)).
Proof.
  intros Hp Hq1 Hq2. cbn zeta. unfold interleaved, two_calls.
  assert (Hfits1 : (Product.inStock product <? q1)%Z = false) by lia.
  assert (Hfits2 : (Product.inStock product <? q2)%Z = false) by lia.
  rewrite run_cons. erewrite advance_task by reflexivity.
  rewrite iterate_find. cbn [Checkout.ProductData.productId Checkout.ProductData.quantity].
  rewrite Hp, Hfits1. cbn [fst snd tasks insert list_insert rejection Checkout.thrown].
  rewrite run_cons. erewrite advance_task by reflexivity.
  rewrite iterate_find. cbn [Checkout.ProductData.productId Checkout.ProductData.quantity].
  rewrite db_sent, Hp, Hfits2.
  cbn [fst snd tasks insert list_insert rejection Checkout.thrown].
  rewrite run_cons. erewrite advance_task by reflexivity.
  rewrite iterate_update. cbn zeta.
  cbn [Checkout.ProductData.productId Checkout.ProductData.quantity].
  rewrite !db_sent, Hp. reflexivity.
Qed.

(** Both requests read before either writes: both pass the check on the
    stock they read, and the second write puts what the second request
    computed from its read, whatever the first write left. *)
Lemma interleaved_overlapped id q1 q2 product w :
  products (db w) !! id = Some product ->
  (q1 <= Product.inStock product)%Z ->
  (q2 <= Product.inStock product)%Z ->
  let first := Checkout.ProductData.mk id q1 in
  let second := Checkout.ProductData.mk id q2 in
  let before_last := interleaved [0; 1; 0]%nat id q1 q2 w in
  let r := interleaved [0; 1; 0; 1]%nat id q1 q2 w in
  tasks r.1 = [Checkout.Reserved (Checkout.line_item first product);
               Checkout.Reserved (Checkout.line_item second product)] /\
  stock before_last.2 id = Some (Product.inStock product - q1)%Z /\
  stock r.2 id = Some (Product.inStock product - q2)%Z.
Proof.
  intros Hp Hq1 Hq2. cbn zeta.
  pose proof (interleaved_reads_first id q1 q2 product w Hp Hq1 Hq2) as Hprefix.
  cbn zeta in Hprefix.
  assert (Hrun : interleaved [0; 1; 0; 1]%nat id q1 q2 w =
            run Checkout.iterate Checkout.thrown [1%nat]
                (interleaved [0; 1; 0]%nat id q1 q2 w).1
                (interleaved [0; 1; 0]%nat id q1 q2 w).2).
  { unfold interleaved. by rewrite <- run_app. }
  rewrite Hrun, Hprefix. cbn [fst snd]. unfold stock.
  rewrite run_cons. erewrite advance_task by reflexivity.
  rewrite iterate_update. cbn zeta.
  cbn [Checkout.ProductData.productId Checkout.ProductData.quantity].
  rewrite !products_reserved.
  cbn [Checkout.ProductData.productId Checkout.ProductData.quantity].
  rewrite lookup_insert_eq.
  cbn [fst snd tasks insert list_insert run db with_db with_products products].
  split; [done|]. by rewrite !lookup_insert_eq.
Qed.

(** C10 fails as stated: two requests for 3 units each of a product with 5
    in stock, the second reading before the first writes, both reserve;
    none fails, and the stock left is 2. *)
Lemma concurrent_checkouts_counterexample :
  let r := interleaved [0; 1; 0; 1]%nat "P1" 3 3 (Sample.shop 1000 5) in
  let item := Checkout.line_item (Checkout.ProductData.mk "P1" 3) (Sample.widget 1000 5) in
  stock (Sample.shop 1000 5) "P1" = Some 5%Z /\
  tasks r.1 = [Checkout.Reserved item; Checkout.Reserved item] /\
  stock r.2 "P1" = Some 2%Z.
Proof. vm_compute. repeat split; reflexivity. Qed.

(** C10, as amended.  The stock decrement of a checkout is a read followed
    by an unconditional write of [stock read - quantity]; it is not a
    conditional update.  For two requests for the same product whose
    quantities together exceed its stock: under every interleaving of
    their statements the stock stays non-negative; when the requests are
    served one after the other and one of the quantities is within the
    stock, exactly one request reserves and the other throws the
    shortage; when both requests read before either writes and each
    quantity alone is within the stock, both reserve, and the second
    write is applied in a store where the conditional update of the
    specification would have affected no row. *)
Theorem concurrent_checkouts id q1 q2 product w :
  sound w ->
  products (db w) !! id = Some product ->
  (Product.inStock product < q1 + q2)%Z ->
  let first := Checkout.ProductData.mk id q1 in
  let second := Checkout.ProductData.mk id q2 in
  let shortage := Checkout.Thrown (InsufficientStock (Product.name product)) in
  (forall sched,
     exists left, stock (interleaved sched id q1 q2 w).2 id = Some left /\ (0 <= left)%Z) /\
  ((q1 <= Product.inStock product)%Z ->
   tasks (interleaved [0; 0; 1; 1]%nat id q1 q2 w).1 =
     [Checkout.Reserved (Checkout.line_item first product); shortage] /\
   stock (interleaved [0; 0; 1; 1]%nat id q1 q2 w).2 id =
     Some (Product.inStock product - q1)%Z) /\
  ((Product.inStock product < q1)%Z -> (q2 <= Product.inStock product)%Z ->
   tasks (interleaved [0; 0; 1; 1]%nat id q1 q2 w).1 =
     [shortage; Checkout.Reserved (Checkout.line_item second product)] /\
   stock (interleaved [0; 0; 1; 1]%nat id q1 q2 w).2 id =
     Some (Product.inStock product - q2)%Z) /\
  ((q1 <= Product.inStock product)%Z -> (q2 <= Product.inStock product)%Z ->
   tasks (interleaved [0; 1; 0; 1]%nat id q1 q2 w).1 =
     [Checkout.Reserved (Checkout.line_item first product);
      Checkout.Reserved (Checkout.line_item second product)] /\
   stock (interleaved [0; 1; 0; 1]%nat id q1 q2 w).2 id =
     Some (Product.inStock product - q2)%Z /\
   (conditional_decrement id q2
      (products (db (interleaved [0; 1; 0]%nat id q1 q2 w).2))).1 = false).
Proof.
  intros Hsound Hp Hover first second shortage.
  split; [|split; [|split]].
  - intros sched. apply interleaved_nonneg; [done|eauto].
  - intros Hq1. pose proof (interleaved_serial id q1 q2 product w Hp Hq1) as Hserial.
    cbn zeta in Hserial.
    by destruct (Z.ltb_spec (Product.inStock product - q1) q2); [|lia].
  - intros Hq1 Hq2. by apply interleaved_serial_short.
  - intros Hq1 Hq2.
    destruct (interleaved_overlapped id q1 q2 product w Hp Hq1 Hq2)
      as (Htasks & Hbefore & Hafter).
    split; [done|]. split; [done|].
    unfold conditional_decrement, stock in *.
    destruct (products (db (interleaved [0; 1; 0]%nat id q1 q2 w).2) !! id)
      as [current|]; [|done].
    cbn in Hbefore. simplify_eq.
    destruct (Z.leb_spec q2 (Product.inStock current)); [lia|done].
Qed.

Lemma concurrent_checkouts_witness :
  let w := Sample.shop 1000 5 in
  let item := Checkout.line_item (Checkout.ProductData.mk "P1" 3) (Sample.widget 1000 5) in
  (forall sched,
     exists left, stock (interleaved sched "P1" 3 3 w).2 "P1" = Some left /\ (0 <= left)%Z) /\
  tasks (interleaved [0; 0; 1; 1]%nat "P1" 3 3 w).1 =
    [Checkout.Reserved item; Checkout.Thrown (InsufficientStock "Widget")] /\
  tasks (interleaved [0; 1; 0; 1]%nat "P1" 3 3 w).1 =
    [Checkout.Reserved item; Checkout.Reserved item].
Proof.
  cbn zeta.
  destruct (concurrent_checkouts "P1" 3 3 (Sample.widget 1000 5) (Sample.shop 1000 5))
    as (Hnonneg & Hserial & _ & Hoverlap).
  - apply sound_shop. lia.
  - reflexivity.
  - cbn. lia.
  - split; [exact Hnonneg|]. split.
    + apply Hserial. cbn. lia.
    + apply Hoverlap; cbn; lia.
Defined.

(** * Further properties of the handlers *)

(** ** Checkout: carts with repeated products *)

Lemma taken_0 product : taken 0 product = product.
Proof. destruct product. unfold taken, Product.set_inStock. cbn. f_equal. lia. Qed.

Lemma taken_taken q1 q2 product :
  taken q2 (taken q1 product) = taken (q1 + q2) product.
Proof. unfold taken, Product.set_inStock. cbn. f_equal. lia. Qed.

Lemma requested_cons first rest id :
  requested id (first :: rest) =
  if decide (Checkout.ProductData.productId first = id)
  then (Checkout.ProductData.quantity first + requested id rest)%Z
  else requested id rest.
Proof. reflexivity. Qed.

Lemma requested_nonneg id cart :
  (forall productData, productData ∈ cart ->
     (0 <= Checkout.ProductData.quantity productData)%Z) ->
  (0 <= requested id cart)%Z.
Proof.
  induction cart as [|first rest IH]; intros Hq; [done|].
  rewrite requested_cons.
  assert (0 <= requested id rest)%Z.
  { apply IH. intros pd Hpd. apply Hq. by apply list_elem_of_further. }
  pose proof (Hq first (list_elem_of_here _ _)).
  case_decide; lia.
Qed.

Lemma requested_absent id cart :
  id ∉ cart_ids cart -> requested id cart = 0%Z.
Proof.
  induction cart as [|first rest IH]; intros Hid; [done|].
  cbn [cart_ids map] in Hid. apply not_elem_of_cons in Hid as [Hne Hid].
  rewrite requested_cons. case_decide; [congruence|]. by apply IH.
Qed.

(** What the loop leaves when it goes through: as many line items as the
    cart has entries, every product of the cart known, and every product
    with its stock less all the cart asks of it. *)
Lemma reserveStock_effect cart line_items w line_items' w' :
  Checkout.reserveStock cart line_items w = (inr line_items', w') ->
  length line_items' = (length line_items + length cart)%nat /\
  (forall productData, productData ∈ cart ->
     is_Some (products (db w) !! Checkout.ProductData.productId productData)) /\
  (forall id,
     products (db w') !! id = taken (requested id cart) <$> products (db w) !! id).
Proof.
  revert line_items w.
  induction cart as [|first rest IH]; intros line_items w Hrun.
  { cbn in Hrun. injection Hrun as <- <-. split; [cbn; lia|]. split.
    - intros pd Hpd. by apply elem_of_nil in Hpd.
    - intros id. cbn. destruct (products (db w) !! id) as [p|]; [|done].
      cbn. by rewrite taken_0. }
  rewrite reserveStock_cons in Hrun. cbn zeta in Hrun.
  destruct (products (db w) !! Checkout.ProductData.productId first)
    as [product|] eqn:Hfirst; [|done].
  destruct (Z.ltb_spec (Product.inStock product) (Checkout.ProductData.quantity first));
    [done|].
  destruct (IH _ _ Hrun) as (Hlen & Hknown & Hproducts).
  split; [|split].
  - rewrite Hlen, length_app. cbn. lia.
  - intros pd Hpd. apply elem_of_cons in Hpd as [->|Hpd]; [by rewrite Hfirst|].
    specialize (Hknown pd Hpd). rewrite products_reserved in Hknown.
    apply lookup_insert_is_Some in Hknown as [<-|[_ Hknown]]; [by rewrite Hfirst|done].
  - intros id. rewrite Hproducts, products_reserved, requested_cons.
    case_decide as Hid.
    + subst id. rewrite lookup_insert_eq, Hfirst. cbn.
      fold (taken (Checkout.ProductData.quantity first) product).
      by rewrite taken_taken.
    + by rewrite lookup_insert_ne.
Qed.

(** With non-negative quantities the loop goes through exactly on the
    carts that are within stock. *)
Lemma reserveStock_accepts cart line_items w :
  (forall productData, productData ∈ cart ->
     (0 <= Checkout.ProductData.quantity productData)%Z) ->
  (exists line_items' w', Checkout.reserveStock cart line_items w = (inr line_items', w'))
  <-> within_stock w cart.
Proof.
  revert line_items w.
  induction cart as [|first rest IH]; intros line_items w Hq.
  { split.
    - intros _ pd Hpd. by apply elem_of_nil in Hpd.
    - intros _. by exists line_items, w. }
  assert (Hq' : forall pd, pd ∈ rest -> (0 <= Checkout.ProductData.quantity pd)%Z).
  { intros pd Hpd. apply Hq. by apply list_elem_of_further. }
  pose proof (Hq first (list_elem_of_here _ _)) as Hq0.
  rewrite reserveStock_cons. cbn zeta. split.
  - intros (li' & w' & Hrun).
    destruct (products (db w) !! Checkout.ProductData.productId first)
      as [product|] eqn:Hfirst; [|done].
    destruct (Z.ltb_spec (Product.inStock product) (Checkout.ProductData.quantity first));
      [done|].
    assert (Hrest : within_stock (reserved first product w) rest).
    { apply (IH (line_items ++ [Checkout.line_item first product])); eauto. }
    assert (Hfirst_ok : (Checkout.ProductData.quantity first +
                         requested (Checkout.ProductData.productId first) rest
                         <= Product.inStock product)%Z).
    { destruct (decide (Checkout.ProductData.productId first ∈ cart_ids rest))
        as [Hin|Hout].
      - apply list_elem_of_fmap in Hin as (pd & Hid & Hpd).
        destruct (Hrest pd Hpd) as (p & Hp & Hle).
        rewrite <- Hid, products_reserved, lookup_insert_eq in Hp.
        rewrite <- Hid in Hle. simplify_eq. cbn in Hle. lia.
      - rewrite (requested_absent _ _ Hout). lia. }
    intros pd Hpd. rewrite requested_cons.
    apply elem_of_cons in Hpd as [->|Hpd].
    + exists product. split; [done|]. by rewrite decide_True.
    + destruct (Hrest pd Hpd) as (p & Hp & Hle).
      rewrite products_reserved in Hp. case_decide as Hid.
      * rewrite <- Hid, lookup_insert_eq in Hp. rewrite <- Hid in Hle.
        exists product. rewrite <- Hid. split; [done|]. simplify_eq. cbn in Hle. lia.
      * rewrite lookup_insert_ne in Hp by done. eauto.
  - intros Hwithin.
    destruct (Hwithin first (list_elem_of_here _ _)) as (product & Hfirst & Hle).
    rewrite requested_cons, decide_True in Hle by done.
    pose proof (requested_nonneg (Checkout.ProductData.productId first) rest Hq').
    rewrite Hfirst.
    destruct (Z.ltb_spec (Product.inStock product) (Checkout.ProductData.quantity first));
      [lia|].
    apply IH; [done|].
    intros pd Hpd. destruct (Hwithin pd (list_elem_of_further _ _ _ Hpd)) as (p & Hp & Hle').
    rewrite requested_cons in Hle'. rewrite products_reserved. case_decide as Hid.
    + rewrite <- Hid, lookup_insert_eq. rewrite <- Hid in Hp, Hle'. simplify_eq.
      eexists. split; [done|]. cbn. lia.
    + rewrite lookup_insert_ne by done. eauto.
Qed.


(** The line items are priced as the store had the products before the
    loop: a reservation changes the stock of a product only. *)
Lemma priced_reserved first product w cart :
  products (db w) !! Checkout.ProductData.productId first = Some product ->
  priced (products (db (reserved first product w))) cart = priced (products (db w)) cart.
Proof.
  intros Hfirst. rewrite products_reserved. unfold priced.
  induction cart as [|productData rest IH]; [done|].
  cbn [omap list_omap]. rewrite IH. f_equal.
  destruct (decide (Checkout.ProductData.productId first =
                    Checkout.ProductData.productId productData)) as [Heq|Hne].
  - by rewrite <- Heq, lookup_insert_eq, Hfirst.
  - by rewrite lookup_insert_ne.
Qed.

Lemma reserveStock_priced cart line_items w line_items' w' :
  Checkout.reserveStock cart line_items w = (inr line_items', w') ->
  line_items' = line_items ++ priced (products (db w)) cart.
Proof.
  revert line_items w.
  induction cart as [|first rest IH]; intros line_items w Hrun.
  { cbn in Hrun. injection Hrun as <- <-. by rewrite app_nil_r. }
  rewrite reserveStock_cons in Hrun. cbn zeta in Hrun.
  destruct (products (db w) !! Checkout.ProductData.productId first)
    as [product|] eqn:Hfirst; [|done].
  destruct (Product.inStock product <? Checkout.ProductData.quantity first)%Z; [done|].
  rewrite (IH _ _ Hrun), (priced_reserved first product w rest Hfirst).
  unfold priced at 2. cbn [omap list_omap]. rewrite Hfirst. cbn.
  by rewrite <- app_assoc.
Qed.

(** What a transaction that commits returns and leaves. *)
Lemma createOrder_returns env storeId cart shipping w result w' :
  Checkout.createOrder env storeId cart shipping w = (inr result, w') ->
  result = (Checkout.uuid_order env, new_order env storeId cart,
            Checkout.totalAmount (priced (products (db w)) cart)) /\
  cart <> [] /\
  committed env storeId cart shipping w w' /\
  stderr w' = stderr w.
Proof.
  unfold Checkout.createOrder, Prisma.transaction.
  destruct (Checkout.callback env storeId cart shipping w) as [[e|a] w0] eqn:Hrun; [done|].
  intros [= -> ->]. revert Hrun. unfold Checkout.callback, bind.
  destruct (reserveStock_frame cart [] w) as (Horders & Hships & Hstderr).
  destruct (Checkout.reserveStock cart [] w) as [[e|line_items] w1] eqn:Hloop; [done|].
  cbn [snd] in Horders, Hships, Hstderr.
  destruct (reserveStock_effect cart [] w line_items w1 Hloop) as (Hlen & Hknown & Hproducts).
  pose proof (reserveStock_priced cart [] w line_items w1 Hloop) as Hitems.
  cbn [app length Nat.add] in Hlen, Hitems.
  destruct (Nat.eqb_spec (length line_items) 0) as [Hzero|Hsome]; [done|].
  unfold Prisma.shippingDetails_create. cbn zeta. rewrite db_sent.
  destruct (shippingDetails (db w1) !! Checkout.uuid_shippingDetails env) eqn:Hship; [done|].
  unfold Prisma.order_create. cbn zeta. cbn [db sent with_db with_shippingDetails orders].
  rewrite Horders.
  destruct (orders (db w) !! Checkout.uuid_order env) eqn:Hfree; [done|].
  destruct (bool_decide_reflect
              (Prisma.linked
                 (Order.shippingDetailsId
                    (Order.mk storeId false false (Checkout.orderItems_of cart)
                       (Some (Checkout.uuid_shippingDetails env))))
                 (orders (db w)))) as [Hlinked|Hunlinked]; [done|].
  intros [= <- <-]. rewrite Hitems. split; [done|]. split.
  { intros ->. cbn in Hlen. lia. }
  split; [|done].
  split; [|split; [done|split; [done|split; [|done]]]].
  - split; [by rewrite <- Hships|]. split; [done|]. exact Hunlinked.
  - cbn. by rewrite Hships.
Qed.

(** What one checkout request does to the database. *)
Lemma checkout_effect env req storeId w :
  let w' := (Checkout.POST env req storeId w).2 in
  db w' = db w \/
  exists cart shipping,
    Checkout.body_products req = Some cart /\
    Checkout.body_shippingDetails req = Some shipping /\
    committed env storeId cart shipping w w'.
Proof.
  cbn zeta. unfold Checkout.POST.
  destruct (Checkout.body_products req) as [[|first rest]|] eqn:Hcart; [by left| |by left].
  destruct (Checkout.body_shippingDetails req) as [shipping|] eqn:Hship; [|by left].
  destruct (Checkout.createOrder env storeId (first :: rest) shipping w)
    as [[e|result] w1] eqn:Hrun.
  - left. cbn [snd]. rewrite db_console_error.
    by apply (transaction_rollback _ _ _ _ Hrun).
  - destruct (createOrder_returns _ _ _ _ _ _ _ Hrun) as (-> & _ & Hcommitted & _).
    right. exists (first :: rest), shipping. split; [done|]. split; [done|].
    by destruct (Checkout.initiatePayment _ _ _ _).
Qed.

(** With free uuids and non-negative quantities, the transaction commits
    exactly on the non-empty carts that are within stock. *)
Lemma createOrder_within_stock env storeId cart shipping w :
  cart <> [] ->
  (forall productData, productData ∈ cart ->
     (0 <= Checkout.ProductData.quantity productData)%Z) ->
  uuids_free env w ->
  (exists result w', Checkout.createOrder env storeId cart shipping w = (inr result, w'))
  <-> within_stock w cart.
Proof.
  intros Hne Hq (Hship & Horder & Hlink). split.
  - intros (result & w' & Hrun). apply (reserveStock_accepts cart [] w Hq).
    revert Hrun. unfold Checkout.createOrder, Prisma.transaction.
    destruct (Checkout.callback env storeId cart shipping w) as [[e|a] w0] eqn:Hcb; [done|].
    intros _. revert Hcb. unfold Checkout.callback, bind.
    destruct (Checkout.reserveStock cart [] w) as [[e|line_items] w1]; [done|]. eauto.
  - intros Hwithin.
    destruct (proj2 (reserveStock_accepts cart [] w Hq) Hwithin) as (line_items & w1 & Hloop).
    destruct (reserveStock_frame cart [] w) as (Horders1 & Hships1 & _).
    rewrite Hloop in Horders1, Hships1. cbn [snd] in Horders1, Hships1.
    destruct (reserveStock_effect cart [] w line_items w1 Hloop) as (Hlen & _).
    do 2 eexists. unfold Checkout.createOrder. apply transaction_returns.
    unfold Checkout.callback, bind. rewrite Hloop.
    destruct (Nat.eqb_spec (length line_items) 0) as [Hzero|_].
    { destruct cart; [done|]. cbn in Hlen. lia. }
    unfold Prisma.shippingDetails_create. cbn zeta.
    rewrite db_sent, Hships1, Hship.
    unfold Prisma.order_create. cbn zeta. cbn [db sent with_db with_shippingDetails orders].
    rewrite Horders1, Horder. cbn [Order.shippingDetailsId].
    rewrite bool_decide_eq_false_2 by done. reflexivity.
Qed.

(** X1.  A checkout request is all or nothing, whatever it asks for: the
    database it leaves is the one it found, or the one in which its
    transaction has committed in full, with the new order, the new
    shipping details and every stock less what the cart asks of the
    product.  No request leaves a part of that. *)
Theorem checkout_all_or_nothing env req storeId w :
  let w' := (Checkout.POST env req storeId w).2 in
  db w' = db w \/
  exists cart shipping,
    Checkout.body_products req = Some cart /\
    Checkout.body_shippingDetails req = Some shipping /\
    cart <> [] /\
    committed env storeId cart shipping w w'.
Proof.
  cbn zeta.
  destruct (checkout_effect env req storeId w) as [Hsame|(cart & shipping & Hc & Hs & Hcom)];
    [by left|].
  destruct (decide (cart = [])) as [->|Hne].
  - left. unfold Checkout.POST. by rewrite Hc.
  - right. by exists cart, shipping.
Qed.



(** X3.  The transaction of a checkout commits exactly on the carts that
    are within stock, counting together the entries that name the same
    product: for a non-empty cart of non-negative quantities, with free
    uuids, [createOrder] succeeds if and only if every product of the cart
    exists and its stock covers the sum of the quantities that the cart
    asks of it. *)
Theorem createOrder_accepts env storeId cart shipping w :
  cart <> [] ->
  (forall productData, productData ∈ cart ->
     (0 <= Checkout.ProductData.quantity productData)%Z) ->
  uuids_free env w ->
  (exists result w', Checkout.createOrder env storeId cart shipping w = (inr result, w'))
  <-> within_stock w cart.
Proof. apply createOrder_within_stock. Qed.

Lemma createOrder_accepts_witness :
  within_stock Market.shop Market.cart /\
  exists result w',
    Checkout.createOrder Sample.env "store" Market.cart Sample.shipping Market.shop =
      (inr result, w').
Proof.
  assert (Hwithin : within_stock Market.shop Market.cart).
  { intros pd Hpd. repeat (apply elem_of_cons in Hpd as [->|Hpd]).
    - exists (Sample.widget 1000 5). split; [reflexivity|]. vm_compute. discriminate.
    - exists (Market.gadget 250 4). split; [reflexivity|]. vm_compute. discriminate.
    - exists (Sample.widget 1000 5). split; [reflexivity|]. vm_compute. discriminate.
    - by apply elem_of_nil in Hpd. }
  split; [exact Hwithin|].
  apply (createOrder_accepts Sample.env "store" Market.cart Sample.shipping Market.shop).
  - discriminate.
  - intros pd Hpd. repeat (apply elem_of_cons in Hpd as [->|Hpd]); cbn; try lia.
    by apply elem_of_nil in Hpd.
  - split; [reflexivity|]. split; [reflexivity|]. cbn. apply map_Exists_empty.
  - exact Hwithin.
Defined.

(** X4.  The payment link is asked for after the transaction has
    committed, and nothing undoes the transaction when the payment cannot
    be initiated.  For a request whose cart is within stock: when the
    processor grants a link, the answer is 200 with the link and nothing
    is printed; when it does not (it refuses, or the call fails), the
    answer is 400 with the error, which is printed; and in both cases the
    order stays created and the stock stays taken. *)
Theorem payment_failure_keeps_order env req storeId cart shipping w :
  Checkout.body_products req = Some cart ->
  Checkout.body_shippingDetails req = Some shipping ->
  cart <> [] ->
  (forall productData, productData ∈ cart ->
     (0 <= Checkout.ProductData.quantity productData)%Z) ->
  uuids_free env w ->
  within_stock w cart ->
  let answer := Checkout.POST env req storeId w in
  committed env storeId cart shipping w answer.2 /\
  match Checkout.initiatePayment env (Checkout.uuid_order env)
          (Checkout.totalAmount (priced (products (db w)) cart)) shipping with
  | inr link =>
      answer.1 = mkResponse 200 (JsonUrl link) true /\ stderr answer.2 = stderr w
  | inl e =>
      answer.1 = mkResponse 400 (JsonError e) false /\ stderr answer.2 = stderr w ++ [e]
  end.
Proof.
  intros Hcart Hship Hne Hq Hfree Hwithin answer. unfold answer, Checkout.POST.
  rewrite Hcart, Hship.
  destruct (proj2 (createOrder_within_stock env storeId cart shipping w Hne Hq Hfree) Hwithin)
    as (result & w1 & Hrun).
  destruct (createOrder_returns _ _ _ _ _ _ _ Hrun) as (-> & _ & Hcommitted & Hstderr).
  destruct cart as [|first rest]; [done|]. rewrite Hrun.
  destruct (Checkout.initiatePayment _ _ _ _) as [e|link]; cbn [fst snd].
  - split; [done|]. split; [done|]. cbn. by rewrite Hstderr.
  - done.
Qed.

Lemma payment_failure_witness :
  let answer := Checkout.POST Market.refused Market.request "store" Market.shop in
  answer.1 = mkResponse 400 (JsonError (PaymentFailed "Invalid key")) false /\
  stderr answer.2 = [PaymentFailed "Invalid key"] /\
  paid answer.2 "O1" = Some false /\
  stock answer.2 "P1" = Some 0%Z.
Proof.
  cbn zeta.
  destruct (payment_failure_keeps_order Market.refused Market.request "store" Market.cart
              Sample.shipping Market.shop) as [Hcommitted Hanswer].
  - reflexivity.
  - reflexivity.
  - discriminate.
  - intros pd Hpd. repeat (apply elem_of_cons in Hpd as [->|Hpd]); cbn; try lia.
    by apply elem_of_nil in Hpd.
  - split; [reflexivity|]. split; [reflexivity|]. cbn. apply map_Exists_empty.
  - intros pd Hpd. repeat (apply elem_of_cons in Hpd as [->|Hpd]).
    + exists (Sample.widget 1000 5). split; [reflexivity|]. vm_compute. discriminate.
    + exists (Market.gadget 250 4). split; [reflexivity|]. vm_compute. discriminate.
    + exists (Sample.widget 1000 5). split; [reflexivity|]. vm_compute. discriminate.
    + by apply elem_of_nil in Hpd.
  - destruct Hcommitted as (_ & _ & Horders & _ & Hproducts).
    destruct Hanswer as [Hresponse Hstderr].
    split; [exact Hresponse|]. split; [exact Hstderr|]. split.
    + unfold paid. rewrite Horders. reflexivity.
    + unfold stock. rewrite Hproducts. reflexivity.
Defined.


(** ** What every request keeps *)

Lemma db_ext (d d' : DB) :
  products d = products d' -> orders d = orders d' ->
  shippingDetails d = shippingDetails d' -> d = d'.
Proof. destruct d, d'. cbn. by intros -> -> ->. Qed.

Lemma served_effect w w' : served w w' -> effect w w'.
Proof.
  intros [-> | env req storeId -> | order_ref payload -> | stripe sched body signature ->].
  - by left.
  - destruct (checkout_effect env req storeId w) as [Hsame|(cart & shipping & _ & _ & Hcom)];
      [by left|].
    right; left. by exists env, storeId, cart, shipping.
  - destruct (paymentWebhook_orders order_ref payload w)
      as (Hproducts & Hships & [Horders|(tx_ref & id & order & _ & _ & Horder & Horders)]).
    + left. by apply db_ext.
    + right; right. exists id, order. split; [done|]. by apply db_ext.
  - left. by destruct (webhook_untouched stripe sched body signature w).
Qed.

Lemma same_catalog_refl w : same_catalog w w.
Proof. by intros id. Qed.

Lemma same_catalog_trans w1 w2 w3 :
  same_catalog w1 w2 -> same_catalog w2 w3 -> same_catalog w1 w3.
Proof. intros H12 H23 id. by rewrite H23, H12. Qed.

Lemma effect_catalog w w' : effect w w' -> same_catalog w w'.
Proof.
  intros [Hsame|[(env & storeId & cart & shipping & Hcom)|(id & order & _ & Hdb)]] id'.
  - by rewrite Hsame.
  - destruct Hcom as (_ & _ & _ & _ & Hproducts). rewrite Hproducts.
    by destruct (products (db w) !! id').
  - by rewrite Hdb.
Qed.

Lemma reached_catalog w w' : rtc served w w' -> same_catalog w w'.
Proof.
  induction 1 as [w|w w1 w' Hstep _ IH]; [apply same_catalog_refl|].
  eapply same_catalog_trans; [|exact IH]. by apply effect_catalog, served_effect.
Qed.

Lemma effect_kept w w' :
  effect w w' -> orders_kept w w' /\ shippingDetails_kept w w'.
Proof.
  intros [Hsame|[(env & storeId & cart & shipping & Hcom)|(id & order & Horder & Hdb)]].
  - unfold orders_kept, shippingDetails_kept. rewrite Hsame. split; [|done].
    intros id order Horder. by exists order.
  - destruct Hcom as ((Hship & Hfree & _) & _ & Horders & Hships & _). split.
    + intros id order Horder. exists order. split; [|done].
      rewrite Horders, lookup_insert_ne; [done|]. intros <-. congruence.
    + intros id row Hrow. rewrite Hships, lookup_insert_ne; [done|]. intros <-. congruence.
  - unfold orders_kept, shippingDetails_kept. rewrite Hdb. cbn. split; [|done].
    intros id' order' Horder'. destruct (decide (id = id')) as [<-|Hne].
    + rewrite lookup_insert_eq. eexists. split; [done|]. by simplify_eq.
    + rewrite lookup_insert_ne; [|done]. by exists order'.
Qed.

Lemma effect_well_linked w w' : effect w w' -> well_linked w -> well_linked w'.
Proof.
  intros [Hsame|[(env & storeId & cart & shipping & Hcom)|(id & order & Horder & Hdb)]]
         (Hitems & Hships & Hunique).
  - unfold well_linked. by rewrite Hsame.
  - destruct Hcom as ((Hship & Hfree & _) & Hknown & Horders' & Hships' & Hproducts').
    assert (Hkept : forall id, is_Some (products (db w) !! id) ->
                               is_Some (products (db w') !! id)).
    { intros id. by rewrite Hproducts', fmap_is_Some. }
    assert (Hold : forall id order,
              orders (db w') !! id = Some order ->
              (id = Checkout.uuid_order env /\ order = new_order env storeId cart) \/
              (id <> Checkout.uuid_order env /\ orders (db w) !! id = Some order)).
    { intros id order. rewrite Horders'.
      destruct (decide (Checkout.uuid_order env = id)) as [<-|Hne].
      - rewrite lookup_insert_eq. intros [= <-]. by left.
      - rewrite lookup_insert_ne; [|done]. intros Horder. by right. }
    assert (Hnew : forall id order,
              orders (db w) !! id = Some order ->
              Order.shippingDetailsId order <> Some (Checkout.uuid_shippingDetails env)).
    { intros id order Horder Hlinked.
      destruct (Hships id order _ Horder Hlinked) as [row Hrow]. congruence. }
    split; [|split].
    + intros id order item Horder Hitem. apply Hkept.
      destruct (Hold id order Horder) as [[-> ->]|[_ Hbefore]]; [|by eapply Hitems].
      cbn in Hitem. unfold Checkout.orderItems_of in Hitem.
      change map with (@fmap list _) in Hitem.
      apply list_elem_of_fmap in Hitem as (pd & -> & Hpd). cbn. by apply Hknown.
    + intros id order sid Horder Hsid. rewrite Hships'.
      destruct (Hold id order Horder) as [[-> ->]|[_ Hbefore]].
      * cbn in Hsid. injection Hsid as <-. by rewrite lookup_insert_eq.
      * apply lookup_insert_is_Some'. right. by eapply Hships.
    + intros id1 id2 order1 order2 sid Horder1 Horder2 Hsid1 Hsid2.
      destruct (Hold id1 order1 Horder1) as [[-> ->]|[_ Hbefore1]];
        destruct (Hold id2 order2 Horder2) as [[-> ->]|[_ Hbefore2]].
      * done.
      * cbn in Hsid1. injection Hsid1 as <-. by destruct (Hnew id2 order2 Hbefore2).
      * cbn in Hsid2. injection Hsid2 as <-. by destruct (Hnew id1 order1 Hbefore1).
      * by eapply Hunique.
  - assert (Hold : forall id' order',
              orders (db w') !! id' = Some order' ->
              exists before,
                orders (db w) !! id' = Some before /\
                Order.orderItems order' = Order.orderItems before /\
                Order.shippingDetailsId order' = Order.shippingDetailsId before).
    { intros id' order'. rewrite Hdb. cbn.
      destruct (decide (id = id')) as [<-|Hne].
      - rewrite lookup_insert_eq. intros [= <-]. by exists order.
      - rewrite lookup_insert_ne; [|done]. intros Horder'. by exists order'. }
    assert (Hproducts : products (db w') = products (db w)) by by rewrite Hdb.
    assert (Hshipping : shippingDetails (db w') = shippingDetails (db w)) by by rewrite Hdb.
    split; [|split].
    + intros id' order' item Horder' Hitem.
      destruct (Hold id' order' Horder') as (before & Hbefore & Hi & _).
      rewrite Hproducts. eapply Hitems; [done|]. by rewrite <- Hi.
    + intros id' order' sid Horder' Hsid.
      destruct (Hold id' order' Horder') as (before & Hbefore & _ & Hs).
      rewrite Hshipping. eapply Hships; [done|]. by rewrite <- Hs.
    + intros id1 id2 order1 order2 sid Horder1 Horder2 Hsid1 Hsid2.
      destruct (Hold id1 order1 Horder1) as (before1 & Hbefore1 & _ & Hs1).
      destruct (Hold id2 order2 Horder2) as (before2 & Hbefore2 & _ & Hs2).
      eapply Hunique; [exact Hbefore1|exact Hbefore2| |].
      * by rewrite <- Hs1.
      * by rewrite <- Hs2.
Qed.

(** X5.  No request adds or deletes a product or changes anything of a
    product but its stock: along every sequence of requests served by the
    handlers, a product is there at the end exactly if it was at the start,
    with its name, price, category, store, description and flags. *)
Theorem catalog_unchanged w w' id :
  rtc served w w' ->
  match products (db w) !! id, products (db w') !! id with
  | Some product, Some product' =>
      product' = Product.set_inStock (Product.inStock product') product
  | None, None => True
  | _, _ => False
  end.
Proof.
  intros Hreach. pose proof (reached_catalog w w' Hreach id) as Hid.
  destruct (products (db w) !! id) as [product|],
           (products (db w') !! id) as [product'|]; try done.
  cbn in Hid. injection Hid as Hid. destruct product, product'.
  unfold Product.set_inStock in *. cbn in *. by simplify_eq.
Qed.

Lemma catalog_unchanged_witness :
  let w1 := (Checkout.POST Sample.env Market.request "store" Market.shop).2 in
  let w2 := (Checkout.paymentWebhook Sample.order_ref
               (charge "order_O1_1700000000000") w1).2 in
  stock w2 "P1" = Some 0%Z /\
  match products (db Market.shop) !! "P1", products (db w2) !! "P1" with
  | Some product, Some product' =>
      product' = Product.set_inStock (Product.inStock product') product
  | None, None => True
  | _, _ => False
  end.
Proof.
  cbn zeta. split; [vm_compute; reflexivity|].
  apply (catalog_unchanged Market.shop).
  eapply rtc_l; [eapply served_checkout; reflexivity|].
  apply rtc_once. eapply served_paymentWebhook. reflexivity.
Defined.

(** X6.  No request deletes an order or changes its store, its items,
    its [isSent] flag or its shipping details, and none makes a paid order
    unpaid; no request deletes or changes a row of shipping details.  This
    holds along every sequence of requests served by the handlers. *)
Theorem rows_kept w w' :
  rtc served w w' -> orders_kept w w' /\ shippingDetails_kept w w'.
Proof.
  induction 1 as [w|w w1 w' Hstep _ [IHo IHs]].
  - split; [|by intros id row Hrow]. intros id order Horder. by exists order.
  - destruct (effect_kept w w1 (served_effect _ _ Hstep)) as [Ho Hs]. split.
    + intros id order Horder.
      destruct (Ho id order Horder) as (order1 & Horder1 & H1 & H2 & H3 & H4 & H5).
      destruct (IHo id order1 Horder1) as (order' & Horder' & H1' & H2' & H3' & H4' & H5').
      exists order'. rewrite H1', H2', H3', H4'. auto 10.
    + intros id row Hrow. by apply IHs, Hs.
Qed.

Lemma rows_kept_witness :
  let w := (Checkout.POST Sample.env Market.request "store" Market.shop).2 in
  let w1 := (Checkout.paymentWebhook Sample.order_ref
               (charge "order_O1_1700000000000") w).2 in
  let w2 := (Checkout.POST Sample.later Market.second "store" w1).2 in
  paid w "O1" = Some false /\
  paid w2 "O1" = Some true /\
  is_Some (orders (db w2) !! "O2") /\
  orders_kept w w2 /\ shippingDetails_kept w w2.
Proof.
  cbn zeta. split; [vm_compute; reflexivity|]. split; [vm_compute; reflexivity|].
  split; [vm_compute; eauto|].
  apply rows_kept.
  eapply rtc_l; [eapply served_paymentWebhook; reflexivity|].
  apply rtc_once. eapply served_checkout. reflexivity.
Defined.

(** X7.  The handlers keep the relations of the schema, which the
    database itself does not enforce: from a store in which every order
    item names an existing product, every order names existing shipping
    details and no two orders share their shipping details, every
    sequence of requests leads to such a store. *)
Theorem references_kept w w' :
  well_linked w -> rtc served w w' -> well_linked w'.
Proof.
  intros Hlinked Hreach. induction Hreach as [w|w w1 w' Hstep _ IH]; [done|].
  apply IH. apply (effect_well_linked w); [by apply served_effect|done].
Qed.

Lemma references_kept_witness :
  let w1 := (Checkout.POST Sample.env Market.request "store" Market.shop).2 in
  let w2 := (Checkout.POST Sample.later Market.second "store" w1).2 in
  is_Some (orders (db w2) !! "O1") /\
  is_Some (orders (db w2) !! "O2") /\
  well_linked w2.
Proof.
  cbn zeta. split; [vm_compute; eauto|]. split; [vm_compute; eauto|].
  apply (references_kept Market.shop).
  - split; [|split]; intros *; cbn; by rewrite lookup_empty.
  - eapply rtc_l; [eapply served_checkout; reflexivity|].
    apply rtc_once. eapply served_checkout. reflexivity.
Defined.


(** ** The notification of the payment processor, in full *)




(** ** The reference of a transaction, built and read back *)

Lemma digit_not_underscore c : OrderRef.digit c = true -> (c =? "_")%char = false.
Proof.
  intros Hdigit. destruct (Ascii.eqb_spec c "_") as [->|]; [|done].
  by vm_compute in Hdigit.
Qed.

Lemma capture_cons c s :
  OrderRef.capture (String c s) =
  if OrderRef.terminator c then None
  else
    match OrderRef.capture s with
    | Some longer => Some (String c longer)
    | None => if OrderRef.tail s then Some (String c EmptyString) else None
    end.
Proof. reflexivity. Qed.

Lemma capture_numeral s :
  OrderRef.all OrderRef.digit s = true ->
  OrderRef.capture s = None /\ OrderRef.tail s = false.
Proof.
  induction s as [|c s IH]; [done|]. cbn [OrderRef.all].
  intros [Hc Hs]%andb_prop. destruct (IH Hs) as [Hcapture Htail]. split.
  - rewrite capture_cons, Hcapture, Htail.
    by destruct (OrderRef.terminator c).
  - cbn [OrderRef.tail]. destruct s; [done|]. by rewrite (digit_not_underscore c Hc).
Qed.

Lemma capture_ref orderId now :
  OrderRef.all (fun c => negb (OrderRef.terminator c)) orderId = true ->
  OrderRef.numeral now = true ->
  OrderRef.capture (orderId ++ "_" ++ now) =
    if (orderId =? "")%string then None else Some orderId.
Proof.
  intros Hplain Hnow. unfold OrderRef.numeral in Hnow.
  apply andb_prop in Hnow as [Hsome Hdigits].
  destruct now as [|d now]; [done|]. clear Hsome.
  pose proof Hdigits as Hd. cbn [OrderRef.all] in Hd. apply andb_prop in Hd as [Hd _].
  destruct (capture_numeral _ Hdigits) as [Hcapture Htail].
  induction orderId as [|c orderId IH].
  - change (OrderRef.capture (String "_" (String d now)) = None).
    rewrite capture_cons, Hcapture, Htail. reflexivity.
  - cbn [OrderRef.all] in Hplain. apply andb_prop in Hplain as [Hc Hrest].
    apply negb_true_iff in Hc.
    change (String c orderId ++ "_" ++ String d now)%string
      with (String c (orderId ++ "_" ++ String d now)).
    rewrite capture_cons, Hc, (IH Hrest).
    destruct orderId as [|c' orderId]; [|reflexivity].
    change (OrderRef.tail ("" ++ "_" ++ String d now)%string)
      with (("_" =? "_")%char && OrderRef.digit d).
    rewrite Hd. reflexivity.
Qed.

Lemma exec_reference orderId now :
  OrderRef.plain orderId = true ->
  OrderRef.numeral now = true ->
  OrderRef.exec ("order_" ++ orderId ++ "_" ++ now) = Some orderId.
Proof.
  intros Hplain Hnow. unfold OrderRef.plain in Hplain.
  apply andb_prop in Hplain as [Hsome Hplain].
  change (OrderRef.exec ("order_" ++ orderId ++ "_" ++ now)%string)
    with (match OrderRef.capture (orderId ++ "_" ++ now)%string with
          | Some captured => Some captured
          | None => OrderRef.exec ("rder_" ++ orderId ++ "_" ++ now)%string
          end).
  rewrite (capture_ref orderId now Hplain Hnow).
  by destruct (orderId =? "")%string.
Qed.

(** X9.  The reference that a checkout gives to the payment processor
    reads back as the order: on [`order_${order.id}_${Date.now()}`], the
    pattern [/order_(.+)_\d+/] of [paymentWebhook] captures the id of the
    order, for every id that is not empty and has no line terminator (as a
    uuid) and every clock value printed as digits. *)
Theorem tx_ref_round_trip env orderId total shipping :
  OrderRef.plain orderId = true ->
  OrderRef.numeral (Checkout.now env) = true ->
  OrderRef.exec (Checkout.tx_ref (Checkout.paymentPayload env orderId total shipping)) =
    Some orderId.
Proof. apply exec_reference. Qed.

Lemma tx_ref_round_trip_witness :
  OrderRef.exec
    (Checkout.tx_ref
       (Checkout.paymentPayload Sample.env "3f2a-order_7_1" (Js.of_Z 20) Sample.shipping)) =
    Some "3f2a-order_7_1".
Proof.
  apply (tx_ref_round_trip Sample.env "3f2a-order_7_1" (Js.of_Z 20) Sample.shipping);
    reflexivity.
Defined.

(** X10.  A checkout and the notification of its payment meet on the same
    order.  For a request whose cart is within stock, the notification of
    a successful charge that carries the reference built by the checkout
    is answered with status 200 by [paymentWebhook] and marks the order of
    that checkout paid; it changes no stock and no other order. *)
Theorem checkout_then_charge env req storeId cart shipping w :
  Checkout.body_products req = Some cart ->
  Checkout.body_shippingDetails req = Some shipping ->
  cart <> [] ->
  (forall productData, productData ∈ cart ->
     (0 <= Checkout.ProductData.quantity productData)%Z) ->
  uuids_free env w ->
  within_stock w cart ->
  OrderRef.plain (Checkout.uuid_order env) = true ->
  OrderRef.numeral (Checkout.now env) = true ->
  let ordered := Checkout.POST env req storeId w in
  let tx_ref :=
    Checkout.tx_ref
      (Checkout.paymentPayload env (Checkout.uuid_order env)
         (Checkout.totalAmount (priced (products (db w)) cart)) shipping) in
  let charged := Checkout.paymentWebhook OrderRef.exec (charge tx_ref) ordered.2 in
  paid ordered.2 (Checkout.uuid_order env) = Some false /\
  charged.1 = mkResponse 200 (JsonMessage "Order payment updated successfully") true /\
  paid charged.2 (Checkout.uuid_order env) = Some true /\
  (forall id, stock charged.2 id = stock ordered.2 id) /\
  (forall id, id <> Checkout.uuid_order env -> paid charged.2 id = paid ordered.2 id).
Proof.
  intros Hcart Hship Hne Hq Hfree Hwithin Hplain Hnow ordered tx_ref charged.
  destruct (proj2 (createOrder_within_stock env storeId cart shipping w Hne Hq Hfree) Hwithin)
    as (result & w1 & Hrun).
  destruct (createOrder_returns _ _ _ _ _ _ _ Hrun) as (_ & _ & Hcommitted & _).
  assert (Hdb : db ordered.2 = db w1).
  { unfold ordered. rewrite (POST_db env req storeId cart shipping w) by done.
    by rewrite Hrun. }
  destruct Hcommitted as (_ & _ & Horders & _).
  assert (Horder : orders (db ordered.2) !! Checkout.uuid_order env =
                     Some (new_order env storeId cart)).
  { rewrite Hdb, Horders. apply lookup_insert_eq. }
  assert (Href : OrderRef.exec tx_ref = Some (Checkout.uuid_order env)).
  { by apply exec_reference. }
  unfold charged.
  rewrite (paymentWebhook_charge OrderRef.exec tx_ref (Checkout.uuid_order env)
             (new_order env storeId cart) ordered.2 Href Horder).
  cbn [fst snd]. unfold paid. rewrite Horder. cbn.
  split; [done|]. split; [done|]. split; [by rewrite lookup_insert_eq|]. split; [done|].
  intros id Hid. by rewrite lookup_insert_ne.
Qed.

Lemma checkout_then_charge_witness :
  let ordered := Checkout.POST Sample.env Market.request "store" Market.shop in
  let charged :=
    Checkout.paymentWebhook OrderRef.exec (charge "order_O1_1700000000000") ordered.2 in
  paid ordered.2 "O1" = Some false /\
  status charged.1 = 200%Z /\
  paid charged.2 "O1" = Some true /\
  stock charged.2 "P1" = Some 0%Z.
Proof.
  cbn zeta.
  destruct (checkout_then_charge Sample.env Market.request "store" Market.cart
              Sample.shipping Market.shop) as (Hunpaid & Hanswer & Hpaid & Hstock & _).
  - reflexivity.
  - reflexivity.
  - discriminate.
  - intros pd Hpd. repeat (apply elem_of_cons in Hpd as [->|Hpd]); cbn; try lia.
    by apply elem_of_nil in Hpd.
  - split; [reflexivity|]. split; [reflexivity|]. cbn. apply map_Exists_empty.
  - intros pd Hpd. repeat (apply elem_of_cons in Hpd as [->|Hpd]).
    + exists (Sample.widget 1000 5). split; [reflexivity|]. vm_compute. discriminate.
    + exists (Market.gadget 250 4). split; [reflexivity|]. vm_compute. discriminate.
    + exists (Sample.widget 1000 5). split; [reflexivity|]. vm_compute. discriminate.
    + by apply elem_of_nil in Hpd.
  - reflexivity.
  - reflexivity.
  - split; [exact Hunpaid|]. split; [exact (f_equal status Hanswer)|].
    split; [exact Hpaid|].
    transitivity (stock (Checkout.POST Sample.env Market.request "store" Market.shop).2 "P1").
    + exact (Hstock "P1").
    + vm_compute. reflexivity.
Defined.


(** ** The checks on the body of a checkout request *)



